(** * ACV portal: record store, filter predicates and spreadsheet export

    A shallow embedding of the storage layer ([MySQLStorage], the class
    behind the [/api/tickets] and [/api/reports] routes), of the table
    schema of [shared/schema.ts] and of [client/src/lib/excel.ts].

    The database is an explicit value: each table is the list of its
    rows in insertion order together with its AUTO_INCREMENT counter.
    Every storage method is a computation in a state-and-error monad
    over that value; a rejected promise is an [Err].  The clock (the
    year of [new Date()]), the collation of the text columns and the
    browser locale are inputs of the functions that read them. *)

From Stdlib Require Import ZArith Ascii String.
From stdpp Require Import prelude strings pretty sorting.

Open Scope string_scope.
Open Scope list_scope.
Open Scope nat_scope.

(** The settled state of a promise: resolved with a value, or rejected
    with the message of the error thrown. *)
Inductive outcome (A : Type) : Type :=
| Ok (a : A)
| Err (message : string).
Arguments Ok {A} _.
Arguments Err {A} _.

(** ** JavaScript values *)

Module Js.

(** [T | null], the type of a nullable column. *)
Definition nullable (T : Type) : Type := option T.

(** [T | null | undefined], the type of an optional property over a
    nullable column: [None] is an absent property, [Some None] is
    [null]. *)
Definition optional (T : Type) : Type := option (option T).

(** The values that reach a spreadsheet cell. *)
Inductive value : Type :=
| Undefined
| Null
| Str (s : string)
| Num (n : Z).

Definition truthy (v : value) : bool :=
  match v with
  | Undefined | Null => false
  | Str s => negb (String.eqb s EmptyString)
  | Num n => negb (Z.eqb n 0)
  end.

(** [a || b] *)
Definition or (a b : value) : value := if truthy a then a else b.

Definition of_string (f : nullable string) : value :=
  match f with Some s => Str s | None => Null end.

Definition of_number (f : nullable Z) : value :=
  match f with Some n => Num n | None => Null end.

(** [if (f) { then_ } else { else_ }] on an optional string, such as
    [filters?.search]: only a non-empty string passes. *)
Definition if_truthy {A : Type} (f : option string) (then_ : string → A)
    (else_ : A) : A :=
  match f with
  | Some s => if String.eqb s EmptyString then else_ else then_ s
  | None => else_
  end.

Definition truthy_string (f : option string) : bool :=
  if_truthy f (λ _, true) false.

(** [f || d] on an optional, nullable string. *)
Definition or_string (f : optional string) (d : string) : string :=
  match f with
  | Some (Some s) => if String.eqb s EmptyString then d else s
  | _ => d
  end.

(** [String(v)] for the values above. *)
Definition to_string (v : value) : string :=
  match v with
  | Undefined => "undefined"
  | Null => "null"
  | Str s => s
  | Num n => pretty n
  end.

Fixpoint repeat_string (n : nat) (fill : string) : string :=
  match n with
  | O => EmptyString
  | S k => fill +:+ repeat_string k fill
  end.

(** [s.padStart(n, c)] for a one-character filler [c]. *)
Definition padStart (n : nat) (c : ascii) (s : string) : string :=
  repeat_string (n - String.length s) (String c EmptyString) +:+ s.

End Js.

(** ** SQL values and operators *)

Module Sql.

(** A DATE value. *)
Record Date : Type := mkDate { year : nat; month : nat; day : nat }.

Definition date_leb (a b : Date) : bool :=
  if (year a <? year b)%nat then true
  else if (year b <? year a)%nat then false
  else if (month a <? month b)%nat then true
  else if (month b <? month a)%nat then false
  else (day a <=? day b)%nat.

(** Reading a date constant written [YYYY-MM-DD], the form an HTML date
    input produces. *)
Definition digits2 (a b : ascii) : option nat :=
  match Ascii.is_nat a, Ascii.is_nat b with
  | Some x, Some y => Some (10 * x + y)
  | _, _ => None
  end.

Definition parse_date (s : string) : option Date :=
  match list_ascii_of_string s with
  | [y1; y2; y3; y4; d1; m1; m2; d2; a1; a2] =>
      if Ascii.eqb d1 "-" && Ascii.eqb d2 "-" then
        match digits2 y1 y2, digits2 y3 y4, digits2 m1 m2, digits2 a1 a2 with
        | Some yh, Some yl, Some m, Some d => Some (mkDate (100 * yh + yl) m d)
        | _, _, _, _ => None
        end
      else None
  | _ => None
  end.

(** SQL truth values: [None] is UNKNOWN (a comparison with NULL). *)
Definition tv : Type := option bool.

Definition and3 (a b : tv) : tv :=
  match a, b with
  | Some false, _ | _, Some false => Some false
  | Some true, Some true => Some true
  | _, _ => None
  end.

Definition or3 (a b : tv) : tv :=
  match a, b with
  | Some true, _ | _, Some true => Some true
  | Some false, Some false => Some false
  | _, _ => None
  end.

(** A WHERE clause keeps the rows on which it is TRUE. *)
Definition is_true (a : tv) : bool :=
  match a with Some b => b | None => false end.

(** A collation, as the weight it gives each character: two characters
    compare equal when their weights are equal.  The tables are created
    without a COLLATE clause, so the collation is the server's. *)
Definition collation : Type := ascii → ascii.

Definition binary : collation := λ c, c.

(** Weights of a case-insensitive collation on the ASCII letters. *)
Definition case_insensitive : collation := λ c,
  let n := nat_of_ascii c in
  if (65 <=? n)%nat && (n <=? 90)%nat then ascii_of_nat (n + 32) else c.

Definition weights (w : collation) (s : string) : list ascii :=
  map w (list_ascii_of_string s).

(** The backslash, character 92. *)
Definition backslash : ascii := "092".

(** [s LIKE p]: in the pattern [%] stands for any run of characters,
    [_] for any one character, and a backslash takes the character
    after it literally. *)
Inductive token : Type :=
| AnyRun
| AnyOne
| Lit (c : ascii).

Fixpoint tokens (p : list ascii) : list token :=
  match p with
  | [] => []
  | c :: p' =>
      if Ascii.eqb c "%" then AnyRun :: tokens p'
      else if Ascii.eqb c "_" then AnyOne :: tokens p'
      else if Ascii.eqb c backslash then
        match p' with
        | [] => [Lit c]
        | e :: p'' => Lit e :: tokens p''
        end
      else Lit c :: tokens p'
  end.

Fixpoint match_tokens (w : collation) (ts : list token) (s : list ascii)
    {struct ts} : bool :=
  match ts with
  | [] => match s with [] => true | _ :: _ => false end
  | AnyRun :: ts' =>
      (fix skip (s : list ascii) : bool :=
         match_tokens w ts' s ||
         match s with [] => false | _ :: s' => skip s' end) s
  | AnyOne :: ts' =>
      match s with [] => false | _ :: s' => match_tokens w ts' s' end
  | Lit c :: ts' =>
      match s with
      | [] => false
      | x :: s' => Ascii.eqb (w c) (w x) && match_tokens w ts' s'
      end
  end.

Definition like_match (w : collation) (pattern s : string) : bool :=
  match_tokens w (tokens (list_ascii_of_string pattern)) (list_ascii_of_string s).

Section Conditions.
Context {Row : Type}.

(** A condition is read row by row. *)
Definition condition : Type := Row → tv.

(** [like(column, pattern)] *)
Definition like (w : collation) (column : Row → Js.nullable string)
    (pattern : string) : condition := λ r,
  match column r with
  | Some s => Some (like_match w pattern s)
  | None => None
  end.

(** [eq(column, text)] on a text column. *)
Definition eq_text (w : collation) (column : Row → Js.nullable string)
    (text : string) : condition := λ r,
  match column r with
  | Some s => Some (bool_decide (weights w s = weights w text))
  | None => None
  end.

(** [eq(table.id, id)] *)
Definition eq_id (column : Row → Z) (id : Z) : condition := λ r,
  Some (Z.eqb (column r) id).

(** [gte(column, constant)] and [lte(column, constant)] on a DATE
    column; the constant arrives as text.  What MySQL does with a
    constant that is not a date depends on its version and mode; here
    such a constant compares as UNKNOWN, and the properties below speak
    of constants that are dates. *)
Definition gte (column : Row → Js.nullable Date) (constant : string)
    : condition := λ r,
  match column r, parse_date constant with
  | Some d, Some c => Some (date_leb c d)
  | _, _ => None
  end.

Definition lte (column : Row → Js.nullable Date) (constant : string)
    : condition := λ r,
  match column r, parse_date constant with
  | Some d, Some c => Some (date_leb d c)
  | _, _ => None
  end.

(** [or(c1, ..., cn)] and [and(c1, ..., cn)] for n >= 1. *)
Definition or_ (cs : list condition) : condition := λ r,
  match cs with
  | [] => Some true
  | c :: cs' => foldl (λ acc c', or3 acc (c' r)) (c r) cs'
  end.

Definition and_ (cs : list condition) : condition := λ r,
  match cs with
  | [] => Some true
  | c :: cs' => foldl (λ acc c', and3 acc (c' r)) (c r) cs'
  end.

(** [YEAR(date) = y] *)
Definition year_is (column : Row → Js.nullable Date) (y : nat) : condition := λ r,
  match column r with
  | Some d => Some (year d =? y)%nat
  | None => None
  end.

(** Rows kept by [WHERE c]. *)
Definition where_ (c : condition) (rows : list Row) : list Row :=
  filter (λ r, is_true (c r) = true) rows.

(** [ORDER BY column DESC] on a DATE column: NULL sorts below every
    date, so it comes last.  SQL leaves the order of rows with equal
    dates open; the model takes the one a merge sort gives. *)
Definition date_below (a b : Js.nullable Date) : bool :=
  match a, b with
  | None, _ => true
  | Some _, None => false
  | Some x, Some y => date_leb x y
  end.

Definition desc (column : Row → Js.nullable Date) : relation Row :=
  λ r1 r2, date_below (column r2) (column r1) = true.

Global Instance desc_dec column r1 r2 : Decision (desc column r1 r2).
Proof. unfold desc. apply _. Defined.

Definition order_by_desc (column : Row → Js.nullable Date)
    (rows : list Row) : list Row :=
  merge_sort (desc column) rows.

End Conditions.

End Sql.

(** ** The tables of shared/schema.ts

    Text, varchar and decimal columns hold strings, integer columns
    hold integers and every column but [id] is nullable.  Date columns
    hold dates: the strings [YYYY-MM-DD] that travel in the JSON bodies
    are kept in parsed form, in the rows and in the insert objects
    alike.  The width of the varchar columns is not modelled. *)

Module Schema.

(** What [insert(...).values(v)] stores for a property of [v]: an absent
    property leaves the column NULL. *)
Definition stored {T : Type} (f : Js.optional T) : Js.nullable T :=
  match f with Some v => v | None => None end.

(** What [update(...).set(v)] does to a column: a property that is
    absent (or undefined) leaves it alone, any other value, null
    included, is written. *)
Definition assign {T : Type} (f : Js.optional T) (old : Js.nullable T)
    : Js.nullable T :=
  match f with Some v => v | None => old end.

(** Whether a property has a value other than undefined. *)
Definition defined {T : Type} (f : Js.optional T) : bool :=
  match f with Some _ => true | None => false end.

(** A row of [tickets]: the type [Ticket]. *)
Module Ticket.
Record t : Type := mk {
  id : Z;
  ticketNo : Js.nullable string;
  date : Js.nullable Sql.Date;
  projectType : Js.nullable string;
  receivedBy : Js.nullable string;
  siteName : Js.nullable string;
  contactPerson : Js.nullable string;
  mobile : Js.nullable string;
  address : Js.nullable string;
  issue : Js.nullable string;
  remarkDetails : Js.nullable string;
  attendedBy : Js.nullable string;
  attendedDate : Js.nullable Sql.Date;
  ticketStatus : Js.nullable string;
  closingDate : Js.nullable Sql.Date;
  paidStatus : Js.nullable string;
  amountReceived : Js.nullable string;
  feedback : Js.nullable string;
  feedbackDate : Js.nullable Sql.Date;
  feedbackTakenBy : Js.nullable string;
  finalRemark : Js.nullable string
}.

End Ticket.

(** [InsertTicket]: the insert schema of [tickets] with [id] omitted.  Every
    column is nullable, so every property is optional and
    [Partial<InsertTicket>] is the same type. *)
Module InsertTicket.
Record t : Type := mk {
  ticketNo : Js.optional string;
  date : Js.optional Sql.Date;
  projectType : Js.optional string;
  receivedBy : Js.optional string;
  siteName : Js.optional string;
  contactPerson : Js.optional string;
  mobile : Js.optional string;
  address : Js.optional string;
  issue : Js.optional string;
  remarkDetails : Js.optional string;
  attendedBy : Js.optional string;
  attendedDate : Js.optional Sql.Date;
  ticketStatus : Js.optional string;
  closingDate : Js.optional Sql.Date;
  paidStatus : Js.optional string;
  amountReceived : Js.optional string;
  feedback : Js.optional string;
  feedbackDate : Js.optional Sql.Date;
  feedbackTakenBy : Js.optional string;
  finalRemark : Js.optional string
}.

(** The object with no property at all. *)
Definition empty : t :=
  mk
     None None None None None None None None None None
     None None None None None None None None None None.

(** One flag per property: whether it has a value to write. *)
Definition entries (v : t) : list bool :=
  [defined (ticketNo v);
   defined (date v);
   defined (projectType v);
   defined (receivedBy v);
   defined (siteName v);
   defined (contactPerson v);
   defined (mobile v);
   defined (address v);
   defined (issue v);
   defined (remarkDetails v);
   defined (attendedBy v);
   defined (attendedDate v);
   defined (ticketStatus v);
   defined (closingDate v);
   defined (paidStatus v);
   defined (amountReceived v);
   defined (feedback v);
   defined (feedbackDate v);
   defined (feedbackTakenBy v);
   defined (finalRemark v)].

(** [{ ...v, ticketNo: no, ticketStatus: status }] *)
Definition with_number_and_status (v : t) (no status : string) : t :=
  {| ticketNo := Some (Some no);
     date := date v;
     projectType := projectType v;
     receivedBy := receivedBy v;
     siteName := siteName v;
     contactPerson := contactPerson v;
     mobile := mobile v;
     address := address v;
     issue := issue v;
     remarkDetails := remarkDetails v;
     attendedBy := attendedBy v;
     attendedDate := attendedDate v;
     ticketStatus := Some (Some status);
     closingDate := closingDate v;
     paidStatus := paidStatus v;
     amountReceived := amountReceived v;
     feedback := feedback v;
     feedbackDate := feedbackDate v;
     feedbackTakenBy := feedbackTakenBy v;
     finalRemark := finalRemark v |}.
End InsertTicket.

(** The row that an insert of [v] creates under the key [id]. *)
Definition ticket_values (id : Z) (v : InsertTicket.t) : Ticket.t :=
  {| Ticket.id := id;
     Ticket.ticketNo := stored (InsertTicket.ticketNo v);
     Ticket.date := stored (InsertTicket.date v);
     Ticket.projectType := stored (InsertTicket.projectType v);
     Ticket.receivedBy := stored (InsertTicket.receivedBy v);
     Ticket.siteName := stored (InsertTicket.siteName v);
     Ticket.contactPerson := stored (InsertTicket.contactPerson v);
     Ticket.mobile := stored (InsertTicket.mobile v);
     Ticket.address := stored (InsertTicket.address v);
     Ticket.issue := stored (InsertTicket.issue v);
     Ticket.remarkDetails := stored (InsertTicket.remarkDetails v);
     Ticket.attendedBy := stored (InsertTicket.attendedBy v);
     Ticket.attendedDate := stored (InsertTicket.attendedDate v);
     Ticket.ticketStatus := stored (InsertTicket.ticketStatus v);
     Ticket.closingDate := stored (InsertTicket.closingDate v);
     Ticket.paidStatus := stored (InsertTicket.paidStatus v);
     Ticket.amountReceived := stored (InsertTicket.amountReceived v);
     Ticket.feedback := stored (InsertTicket.feedback v);
     Ticket.feedbackDate := stored (InsertTicket.feedbackDate v);
     Ticket.feedbackTakenBy := stored (InsertTicket.feedbackTakenBy v);
     Ticket.finalRemark := stored (InsertTicket.finalRemark v) |}.

(** The row after [set(v)]. *)
Definition ticket_set (v : InsertTicket.t) (r : Ticket.t) : Ticket.t :=
  {| Ticket.id := Ticket.id r;
     Ticket.ticketNo := assign (InsertTicket.ticketNo v) (Ticket.ticketNo r);
     Ticket.date := assign (InsertTicket.date v) (Ticket.date r);
     Ticket.projectType := assign (InsertTicket.projectType v) (Ticket.projectType r);
     Ticket.receivedBy := assign (InsertTicket.receivedBy v) (Ticket.receivedBy r);
     Ticket.siteName := assign (InsertTicket.siteName v) (Ticket.siteName r);
     Ticket.contactPerson := assign (InsertTicket.contactPerson v) (Ticket.contactPerson r);
     Ticket.mobile := assign (InsertTicket.mobile v) (Ticket.mobile r);
     Ticket.address := assign (InsertTicket.address v) (Ticket.address r);
     Ticket.issue := assign (InsertTicket.issue v) (Ticket.issue r);
     Ticket.remarkDetails := assign (InsertTicket.remarkDetails v) (Ticket.remarkDetails r);
     Ticket.attendedBy := assign (InsertTicket.attendedBy v) (Ticket.attendedBy r);
     Ticket.attendedDate := assign (InsertTicket.attendedDate v) (Ticket.attendedDate r);
     Ticket.ticketStatus := assign (InsertTicket.ticketStatus v) (Ticket.ticketStatus r);
     Ticket.closingDate := assign (InsertTicket.closingDate v) (Ticket.closingDate r);
     Ticket.paidStatus := assign (InsertTicket.paidStatus v) (Ticket.paidStatus r);
     Ticket.amountReceived := assign (InsertTicket.amountReceived v) (Ticket.amountReceived r);
     Ticket.feedback := assign (InsertTicket.feedback v) (Ticket.feedback r);
     Ticket.feedbackDate := assign (InsertTicket.feedbackDate v) (Ticket.feedbackDate r);
     Ticket.feedbackTakenBy := assign (InsertTicket.feedbackTakenBy v) (Ticket.feedbackTakenBy r);
     Ticket.finalRemark := assign (InsertTicket.finalRemark v) (Ticket.finalRemark r) |}.

(** A row of [reports]: the type [Report]. *)
Module Report.
Record t : Type := mk {
  id : Z;
  name : Js.nullable string;
  date : Js.nullable Sql.Date;
  kmIn : Js.nullable Z;
  kmOut : Js.nullable Z;
  site1 : Js.nullable string;
  serviceReport1 : Js.nullable string;
  site2 : Js.nullable string;
  serviceReport2 : Js.nullable string;
  site3 : Js.nullable string;
  site4 : Js.nullable string;
  serviceReport3 : Js.nullable string;
  transportMode : Js.nullable string;
  totalKm : Js.nullable Z;
  amount : Js.nullable string;
  paidOn : Js.nullable Sql.Date
}.

End Report.

(** [InsertReport]: the insert schema of [reports] with [id] omitted.  Every
    column is nullable, so every property is optional and
    [Partial<InsertReport>] is the same type. *)
Module InsertReport.
Record t : Type := mk {
  name : Js.optional string;
  date : Js.optional Sql.Date;
  kmIn : Js.optional Z;
  kmOut : Js.optional Z;
  site1 : Js.optional string;
  serviceReport1 : Js.optional string;
  site2 : Js.optional string;
  serviceReport2 : Js.optional string;
  site3 : Js.optional string;
  site4 : Js.optional string;
  serviceReport3 : Js.optional string;
  transportMode : Js.optional string;
  totalKm : Js.optional Z;
  amount : Js.optional string;
  paidOn : Js.optional Sql.Date
}.

(** The object with no property at all. *)
Definition empty : t :=
  mk
     None None None None None None None None None None
     None None None None None.

(** One flag per property: whether it has a value to write. *)
Definition entries (v : t) : list bool :=
  [defined (name v);
   defined (date v);
   defined (kmIn v);
   defined (kmOut v);
   defined (site1 v);
   defined (serviceReport1 v);
   defined (site2 v);
   defined (serviceReport2 v);
   defined (site3 v);
   defined (site4 v);
   defined (serviceReport3 v);
   defined (transportMode v);
   defined (totalKm v);
   defined (amount v);
   defined (paidOn v)].

End InsertReport.

(** The row that an insert of [v] creates under the key [id]. *)
Definition report_values (id : Z) (v : InsertReport.t) : Report.t :=
  {| Report.id := id;
     Report.name := stored (InsertReport.name v);
     Report.date := stored (InsertReport.date v);
     Report.kmIn := stored (InsertReport.kmIn v);
     Report.kmOut := stored (InsertReport.kmOut v);
     Report.site1 := stored (InsertReport.site1 v);
     Report.serviceReport1 := stored (InsertReport.serviceReport1 v);
     Report.site2 := stored (InsertReport.site2 v);
     Report.serviceReport2 := stored (InsertReport.serviceReport2 v);
     Report.site3 := stored (InsertReport.site3 v);
     Report.site4 := stored (InsertReport.site4 v);
     Report.serviceReport3 := stored (InsertReport.serviceReport3 v);
     Report.transportMode := stored (InsertReport.transportMode v);
     Report.totalKm := stored (InsertReport.totalKm v);
     Report.amount := stored (InsertReport.amount v);
     Report.paidOn := stored (InsertReport.paidOn v) |}.

(** The row after [set(v)]. *)
Definition report_set (v : InsertReport.t) (r : Report.t) : Report.t :=
  {| Report.id := Report.id r;
     Report.name := assign (InsertReport.name v) (Report.name r);
     Report.date := assign (InsertReport.date v) (Report.date r);
     Report.kmIn := assign (InsertReport.kmIn v) (Report.kmIn r);
     Report.kmOut := assign (InsertReport.kmOut v) (Report.kmOut r);
     Report.site1 := assign (InsertReport.site1 v) (Report.site1 r);
     Report.serviceReport1 := assign (InsertReport.serviceReport1 v) (Report.serviceReport1 r);
     Report.site2 := assign (InsertReport.site2 v) (Report.site2 r);
     Report.serviceReport2 := assign (InsertReport.serviceReport2 v) (Report.serviceReport2 r);
     Report.site3 := assign (InsertReport.site3 v) (Report.site3 r);
     Report.site4 := assign (InsertReport.site4 v) (Report.site4 r);
     Report.serviceReport3 := assign (InsertReport.serviceReport3 v) (Report.serviceReport3 r);
     Report.transportMode := assign (InsertReport.transportMode v) (Report.transportMode r);
     Report.totalKm := assign (InsertReport.totalKm v) (Report.totalKm r);
     Report.amount := assign (InsertReport.amount v) (Report.amount r);
     Report.paidOn := assign (InsertReport.paidOn v) (Report.paidOn r) |}.

End Schema.

(** ** The storage layer: class MySQLStorage *)

Module Storage.
Import Schema.

(** A table: its rows in insertion order and its AUTO_INCREMENT
    counter, the key the next inserted row gets. *)
Record Table (Row : Type) : Type := mkTable {
  rows : list Row;
  auto_increment : Z
}.
Arguments mkTable {Row} _ _.
Arguments rows {Row} _.
Arguments auto_increment {Row} _.

Record Db : Type := mkDb {
  tickets : Table Ticket.t;
  reports : Table Report.t
}.

(** How a query reaches its table inside the database. *)
Record table_of (Row : Type) : Type := mkAccess {
  get : Db → Table Row;
  put : Table Row → Db → Db;
  key : Row → Z
}.
Arguments get {Row} _ _.
Arguments put {Row} _ _ _.
Arguments key {Row} _ _.

Definition tickets_table : table_of Ticket.t :=
  {| get := tickets;
     put := λ t db, {| tickets := t; reports := reports db |};
     key := Ticket.id |}.

Definition reports_table : table_of Report.t :=
  {| get := reports;
     put := λ t db, {| tickets := tickets db; reports := t |};
     key := Report.id |}.

(** An async method: it reads and writes the database and resolves or
    rejects.  What was written before a rejection stays written. *)
Definition M (A : Type) : Type := Db → outcome A * Db.

Global Instance M_ret : MRet M := λ A a db, (Ok a, db).

Global Instance M_bind : MBind M := λ A B f m db,
  match m db with
  | (Ok a, db') => f a db'
  | (Err e, db') => (Err e, db')
  end.

(** [try { body } catch (error) { throw new Error(message) }] *)
Definition try_catch {A : Type} (body : M A) (message : string) : M A := λ db,
  match body db with
  | (Ok a, db') => (Ok a, db')
  | (Err _, db') => (Err message, db')
  end.

Section Queries.
Context {Row : Type} (T : table_of Row).

(** [db.select().from(T)], with an optional [where] and an optional
    [orderBy(desc(column))]. *)
Definition select (condition : option (Sql.condition (Row := Row)))
    (order : option (Row → Js.nullable Sql.Date)) : M (list Row) := λ db,
  let found :=
    match condition with
    | Some c => Sql.where_ c (rows (get T db))
    | None => rows (get T db)
    end in
  (Ok match order with
      | Some column => Sql.order_by_desc column found
      | None => found
      end, db).

(** [SELECT COUNT( * ) FROM T WHERE c] *)
Definition count (c : Sql.condition (Row := Row)) : M nat := λ db,
  (Ok (length (Sql.where_ c (rows (get T db)))), db).

(** [db.insert(T).values(v)]: the row takes the counter as its key and
    the counter moves on; resolves to [insertId]. *)
Definition insert (values : Z → Row) : M Z := λ db,
  let t := get T db in
  let insertId := auto_increment t in
  (Ok insertId,
   put T {| rows := (rows t ++ [values insertId])%list;
            auto_increment := insertId + 1 |} db).

(** [db.update(T).set(v).where(c)].  [entries] tells which properties
    of [v] have a value other than undefined; only those are assigned.
    When there is none the statement has nothing to assign and the
    call fails: drizzle's [set] throws "No values to set" (releases
    before that check send [UPDATE T SET WHERE ...], which MySQL
    rejects as a syntax error). *)
Definition update (entries : list bool) (set : Row → Row)
    (c : Sql.condition (Row := Row)) : M () := λ db,
  if existsb (λ b, b) entries then
    let t := get T db in
    (Ok (),
     put T {| rows := map (λ r, if Sql.is_true (c r) then set r else r) (rows t);
              auto_increment := auto_increment t |} db)
  else (Err "No values to set", db).

(** [db.delete(T).where(c)]; resolves to [affectedRows]. *)
Definition delete (c : Sql.condition (Row := Row)) : M nat := λ db,
  let t := get T db in
  let kept := filter (λ r, Sql.is_true (c r) = false) (rows t) in
  (Ok (length (rows t) - length kept),
   put T {| rows := kept; auto_increment := auto_increment t |} db).

End Queries.

(** [filters?: { search?, status?, projectType? }] *)
Module TicketFilters.
Record t : Type := mk {
  search : option string;
  status : option string;
  projectType : option string
}.
End TicketFilters.

(** [filters?: { search?, fromDate?, toDate? }] *)
Module ReportFilters.
Record t : Type := mk {
  search : option string;
  fromDate : option string;
  toDate : option string
}.
End ReportFilters.

(** *** Ticket operations *)

Definition getTickets (w : Sql.collation) (filters : option TicketFilters.t)
    : M (list Ticket.t) :=
  try_catch
    (let search : option string := filters ≫= TicketFilters.search in
     let status : option string := filters ≫= TicketFilters.status in
     let projectType : option string := filters ≫= TicketFilters.projectType in
     let condition :=
       if Js.truthy_string search || Js.truthy_string status
          || Js.truthy_string projectType
       then
         let conditions : list Sql.condition := [] in
         let conditions :=
           Js.if_truthy search
             (λ text,
                let searchTerm := "%" +:+ text +:+ "%" in
                (conditions ++
                   [Sql.or_ [Sql.like w Ticket.ticketNo searchTerm;
                             Sql.like w Ticket.siteName searchTerm;
                             Sql.like w Ticket.contactPerson searchTerm]])%list)
             conditions in
         let conditions :=
           Js.if_truthy status
             (λ text, (conditions ++ [Sql.eq_text w Ticket.ticketStatus text])%list)
             conditions in
         let conditions :=
           Js.if_truthy projectType
             (λ text, (conditions ++ [Sql.eq_text w Ticket.projectType text])%list)
             conditions in
         if (0 <? length conditions)%nat then Some (Sql.and_ conditions)
         else None
       else None in
     select tickets_table condition (Some Ticket.date))
    "Failed to retrieve tickets".

(** [result[0] || undefined] *)
Definition getTicketById (id : Z) : M (option Ticket.t) :=
  try_catch
    (result ← select tickets_table (Some (Sql.eq_id Ticket.id id)) None;
     mret (head result))
    "Failed to retrieve ticket".

(** [year] is [new Date().getFullYear()].  The method returns
    [newTicket!], the row read back under [insertId]. *)
Definition createTicket (year : nat) (ticket : InsertTicket.t)
    : M (option Ticket.t) :=
  try_catch
    (countResult ← count tickets_table (Sql.year_is Ticket.date year);
     let count := (countResult + 1)%nat in
     let ticketNo :=
       "TKT-" +:+ pretty year +:+ "-" +:+ Js.padStart 3 "0" (pretty count) in
     let ticketData :=
       InsertTicket.with_number_and_status ticket ticketNo
         (Js.or_string (InsertTicket.ticketStatus ticket) "Open") in
     insertId ← insert tickets_table (λ id, ticket_values id ticketData);
     getTicketById insertId)
    "Failed to create ticket".

Definition updateTicket (id : Z) (ticket : InsertTicket.t)
    : M (option Ticket.t) :=
  try_catch
    (update tickets_table (InsertTicket.entries ticket) (ticket_set ticket)
       (Sql.eq_id Ticket.id id);;
     getTicketById id)
    "Failed to update ticket".

Definition deleteTicket (id : Z) : M bool :=
  try_catch
    (affectedRows ← delete tickets_table (Sql.eq_id Ticket.id id);
     mret (0 <? affectedRows)%nat)
    "Failed to delete ticket".

(** *** Report operations *)

Definition getReports (w : Sql.collation) (filters : option ReportFilters.t)
    : M (list Report.t) :=
  try_catch
    (let search : option string := filters ≫= ReportFilters.search in
     let fromDate : option string := filters ≫= ReportFilters.fromDate in
     let toDate : option string := filters ≫= ReportFilters.toDate in
     let condition :=
       if Js.truthy_string search || Js.truthy_string fromDate
          || Js.truthy_string toDate
       then
         let conditions : list Sql.condition := [] in
         let conditions :=
           Js.if_truthy search
             (λ text,
                let searchTerm := "%" +:+ text +:+ "%" in
                (conditions ++ [Sql.like w Report.name searchTerm])%list)
             conditions in
         let conditions :=
           Js.if_truthy fromDate
             (λ text, (conditions ++ [Sql.gte Report.date text])%list)
             conditions in
         let conditions :=
           Js.if_truthy toDate
             (λ text, (conditions ++ [Sql.lte Report.date text])%list)
             conditions in
         if (0 <? length conditions)%nat then Some (Sql.and_ conditions)
         else None
       else None in
     select reports_table condition (Some Report.date))
    "Failed to retrieve reports".

Definition getReportById (id : Z) : M (option Report.t) :=
  try_catch
    (result ← select reports_table (Some (Sql.eq_id Report.id id)) None;
     mret (head result))
    "Failed to retrieve report".

Definition createReport (report : InsertReport.t) : M (option Report.t) :=
  try_catch
    (insertId ← insert reports_table (λ id, report_values id report);
     getReportById insertId)
    "Failed to create report".

Definition updateReport (id : Z) (report : InsertReport.t)
    : M (option Report.t) :=
  try_catch
    (update reports_table (InsertReport.entries report) (report_set report)
       (Sql.eq_id Report.id id);;
     getReportById id)
    "Failed to update report".

Definition deleteReport (id : Z) : M bool :=
  try_catch
    (affectedRows ← delete reports_table (Sql.eq_id Report.id id);
     mret (0 <? affectedRows)%nat)
    "Failed to delete report".

End Storage.

(** ** The export formatter: client/src/lib/excel.ts *)

Module Excel.
Import Schema.

(** The workbook handed to [XLSX.writeFile]: one sheet, given as the
    array of arrays it is built from, its column widths and the name of
    the file. *)
Record Workbook : Type := mkWorkbook {
  sheetName : string;
  worksheetData : list (list Js.value);
  cols : list nat;
  finalFilename : string
}.

(** The two arguments [data] and [type] together; [None] is an absent
    list.  The callers pass tickets with ['tickets'] and reports with
    ['reports']. *)
Inductive records : Type :=
| tickets (data : option (list Ticket.t))
| reports (data : option (list Report.t)).

(** [field || ''] on a text field. *)
Definition text_cell (field : Js.nullable string) : Js.value :=
  Js.or (Js.of_string field) (Js.Str EmptyString).

(** [field || ''] on a numeric field. *)
Definition number_cell (field : Js.nullable Z) : Js.value :=
  Js.or (Js.of_number field) (Js.Str EmptyString).

(** [field ? new Date(field).toLocaleDateString() : ''], where [locale]
    is the browser's rendering of a calendar date. *)
Definition date_cell (locale : Sql.Date → string)
    (field : Js.nullable Sql.Date) : Js.value :=
  match field with
  | Some d => Js.Str (locale d)
  | None => Js.Str EmptyString
  end.

Definition ticket_headers : list string :=
  ["Ticket No"; "Date"; "Project Type"; "Received By";
   "Site Name"; "Contact Person"; "Mobile"; "Address";
   "Issue"; "Remark Details"; "Attended By"; "Attended Date";
   "Ticket Status"; "Closing Date"; "Paid Status"; "Amount Received";
   "Feedback"; "Feedback Date"; "Feedback Taken By"; "Final Remark"].

Definition ticket_row (locale : Sql.Date → string) (ticket : Ticket.t)
    : list Js.value :=
  [text_cell (Ticket.ticketNo ticket);
   date_cell locale (Ticket.date ticket);
   text_cell (Ticket.projectType ticket);
   text_cell (Ticket.receivedBy ticket);
   text_cell (Ticket.siteName ticket);
   text_cell (Ticket.contactPerson ticket);
   text_cell (Ticket.mobile ticket);
   text_cell (Ticket.address ticket);
   text_cell (Ticket.issue ticket);
   text_cell (Ticket.remarkDetails ticket);
   text_cell (Ticket.attendedBy ticket);
   date_cell locale (Ticket.attendedDate ticket);
   text_cell (Ticket.ticketStatus ticket);
   date_cell locale (Ticket.closingDate ticket);
   text_cell (Ticket.paidStatus ticket);
   text_cell (Ticket.amountReceived ticket);
   text_cell (Ticket.feedback ticket);
   date_cell locale (Ticket.feedbackDate ticket);
   text_cell (Ticket.feedbackTakenBy ticket);
   text_cell (Ticket.finalRemark ticket)].

Definition report_headers : list string :=
  ["Name"; "Date"; "KM In"; "KM Out";
   "Site 1"; "Service Report 1"; "Site 2"; "Service Report 2";
   "Site 3"; "Site 4"; "Service Report 3"; "Transport Mode";
   "Total KM"; "Amount"; "Paid On"].

Definition report_row (locale : Sql.Date → string) (report : Report.t)
    : list Js.value :=
  [text_cell (Report.name report);
   date_cell locale (Report.date report);
   number_cell (Report.kmIn report);
   number_cell (Report.kmOut report);
   text_cell (Report.site1 report);
   text_cell (Report.serviceReport1 report);
   text_cell (Report.site2 report);
   text_cell (Report.serviceReport2 report);
   text_cell (Report.site3 report);
   text_cell (Report.site4 report);
   text_cell (Report.serviceReport3 report);
   text_cell (Report.transportMode report);
   number_cell (Report.totalKm report);
   text_cell (Report.amount report);
   date_cell locale (Report.paidOn report)].

(** [Math.max(header.length, ...rows.map(row => String(row[i] || '').length))]
    and then [Math.min(maxWidth + 2, 50)]. *)
Definition colWidth (rows : list (list Js.value)) (i : nat) (header : string)
    : nat :=
  let maxWidth :=
    foldr Nat.max (String.length header)
      (map (λ row, String.length
                     (Js.to_string (Js.or (default Js.Undefined (row !! i))
                                          (Js.Str EmptyString)))) rows) in
  Nat.min (maxWidth + 2) 50.

Definition build (name : string) (headers : list string)
    (rows : list (list Js.value)) (timestamp filename : string) : Workbook :=
  {| sheetName := name;
     worksheetData := map Js.Str headers :: rows;
     cols := imap (colWidth rows) headers;
     finalFilename := filename +:+ "_" +:+ timestamp +:+ ".xlsx" |}.

(** [timestamp] is [new Date().toISOString().split('T')[0]].  The
    function resolves once the workbook has been written. *)
Definition exportToExcel (locale : Sql.Date → string) (timestamp : string)
    (input : records) (filename : string) : outcome Workbook :=
  match input with
  | tickets data =>
      match data with
      | None | Some [] => Err "No data to export"
      | Some data =>
          Ok (build "Tickets" ticket_headers (map (ticket_row locale) data)
                timestamp filename)
      end
  | reports data =>
      match data with
      | None | Some [] => Err "No data to export"
      | Some data =>
          Ok (build "Reports" report_headers (map (report_row locale) data)
                timestamp filename)
      end
  end.

End Excel.

(** ** Vocabulary of the properties *)

Module Props.
Import Schema Storage.

(** Every key in the table was handed out by its counter. *)
Definition keys_below {Row : Type} (T : table_of Row) (db : Db) : Prop :=
  Forall (λ r, (key T r < auto_increment (get T db))%Z) (rows (get T db)).

Definition consistent (db : Db) : Prop :=
  keys_below tickets_table db ∧ keys_below reports_table db.

(** A database with no row yet. *)
Definition fresh : Db := mkDb (mkTable [] 1) (mkTable [] 1).

(** The row stored under a key, if any. *)
Definition stored_ticket (db : Db) (id : Z) : option Ticket.t :=
  head (filter (λ t, Ticket.id t = id) (rows (tickets db))).

Definition stored_report (db : Db) (id : Z) : option Report.t :=
  head (filter (λ r, Report.id r = id) (rows (reports db))).

(** Tickets whose date falls in a calendar year. *)
Definition dated_in (y : nat) (t : Ticket.t) : bool :=
  match Ticket.date t with
  | Some d => (Sql.year d =? y)%nat
  | None => false
  end.

Definition tickets_dated_in (y : nat) (db : Db) : nat :=
  length (filter (λ t, dated_in y t = true) (rows (tickets db))).

(** The row that [createTicket] inserts, and the database after it. *)
Definition numbered (year : nat) (ticket : InsertTicket.t) (db : Db) : Ticket.t :=
  ticket_values (auto_increment (tickets db))
    (InsertTicket.with_number_and_status ticket
       ("TKT-" +:+ pretty year +:+ "-" +:+
        Js.padStart 3 "0" (pretty (tickets_dated_in year db + 1)))
       (Js.or_string (InsertTicket.ticketStatus ticket) "Open")).

Definition with_ticket (t : Ticket.t) (db : Db) : Db :=
  {| tickets := {| rows := rows (tickets db) ++ [t];
                   auto_increment := auto_increment (tickets db) + 1 |};
     reports := reports db |}.

(** The database after [set] has been applied to the rows under a
    key, and after the rows under a key have been dropped. *)
Definition with_ticket_set (id : Z) (v : InsertTicket.t) (db : Db) : Db :=
  {| tickets :=
       {| rows := map (λ t, if Sql.is_true (Sql.eq_id Ticket.id id t)
                            then ticket_set v t else t) (rows (tickets db));
          auto_increment := auto_increment (tickets db) |};
     reports := reports db |}.

Definition with_report_set (id : Z) (v : InsertReport.t) (db : Db) : Db :=
  {| tickets := tickets db;
     reports :=
       {| rows := map (λ r, if Sql.is_true (Sql.eq_id Report.id id r)
                            then report_set v r else r) (rows (reports db));
          auto_increment := auto_increment (reports db) |} |}.

Definition without_ticket (id : Z) (db : Db) : Db :=
  {| tickets := {| rows := filter (λ t, Ticket.id t ≠ id) (rows (tickets db));
                   auto_increment := auto_increment (tickets db) |};
     reports := reports db |}.

Definition without_report (id : Z) (db : Db) : Db :=
  {| tickets := tickets db;
     reports := {| rows := filter (λ r, Report.id r ≠ id) (rows (reports db));
                   auto_increment := auto_increment (reports db) |} |}.

(** The row that [createReport] inserts, and the database after it. *)
Definition with_report (r : Report.t) (db : Db) : Db :=
  {| tickets := tickets db;
     reports := {| rows := rows (reports db) ++ [r];
                   auto_increment := auto_increment (reports db) + 1 |} |}.

(** A filter value as the queries see it: a non-empty string, or
    nothing. *)
Definition supplied (f : option string) : option string :=
  Js.if_truthy f Some None.

Definition ticket_filter_values (filters : option TicketFilters.t)
    : option string * option string * option string :=
  (supplied (filters ≫= TicketFilters.search),
   supplied (filters ≫= TicketFilters.status),
   supplied (filters ≫= TicketFilters.projectType)).

Definition report_filter_values (filters : option ReportFilters.t)
    : option string * option string * option string :=
  (supplied (filters ≫= ReportFilters.search),
   supplied (filters ≫= ReportFilters.fromDate),
   supplied (filters ≫= ReportFilters.toDate)).

(** The conditions that the supplied filter values give rise to, in
    the order in which the queries collect them. *)
Definition ticket_conditions (w : Sql.collation)
    (values : option string * option string * option string)
    : list (Sql.condition (Row := Ticket.t)) :=
  let '(search, status, projectType) := values in
  match search with
  | Some s =>
      [Sql.or_ [Sql.like w Ticket.ticketNo ("%" +:+ s +:+ "%");
                Sql.like w Ticket.siteName ("%" +:+ s +:+ "%");
                Sql.like w Ticket.contactPerson ("%" +:+ s +:+ "%")]]
  | None => []
  end
  ++ match status with
     | Some s => [Sql.eq_text w Ticket.ticketStatus s]
     | None => []
     end
  ++ match projectType with
     | Some s => [Sql.eq_text w Ticket.projectType s]
     | None => []
     end.

Definition report_conditions (w : Sql.collation)
    (values : option string * option string * option string)
    : list (Sql.condition (Row := Report.t)) :=
  let '(search, fromDate, toDate) := values in
  match search with
  | Some s => [Sql.like w Report.name ("%" +:+ s +:+ "%")]
  | None => []
  end
  ++ match fromDate with
     | Some s => [Sql.gte Report.date s]
     | None => []
     end
  ++ match toDate with
     | Some s => [Sql.lte Report.date s]
     | None => []
     end.

(** The rows a list query returns for the conditions it collected. *)
Definition listed {Row : Type} (column : Row → Js.nullable Sql.Date)
    (conditions : list (Sql.condition (Row := Row))) (l : list Row) : list Row :=
  Sql.order_by_desc column
    match conditions with
    | [] => l
    | _ :: _ => Sql.where_ (Sql.and_ conditions) l
    end.

(** Substring search on weights. *)
Fixpoint starts_with (needle hay : list ascii) : bool :=
  match needle, hay with
  | [], _ => true
  | _ :: _, [] => false
  | c :: needle', x :: hay' => Ascii.eqb c x && starts_with needle' hay'
  end.

Fixpoint occurs_in (needle hay : list ascii) : bool :=
  starts_with needle hay ||
  match hay with
  | [] => false
  | _ :: hay' => occurs_in needle hay'
  end.





(** A date bound that reads as a date. *)
Definition dated (bound : option string) : Prop :=
  match bound with
  | Some s => is_Some (Sql.parse_date s)
  | None => True
  end.


Definition on_or_after (bound : string) (field : Js.nullable Sql.Date) : bool :=
  match field, Sql.parse_date bound with
  | Some d, Some b => Sql.date_leb b d
  | _, _ => false
  end.

Definition on_or_before (bound : string) (field : Js.nullable Sql.Date) : bool :=
  match field, Sql.parse_date bound with
  | Some d, Some b => Sql.date_leb d b
  | _, _ => false
  end.


End Props.

(** ** Sample data *)

Module Samples.
Import Schema Storage.

Definition march14 : Sql.Date := Sql.mkDate 2025 3 14.

(** A ticket as a client may post it, a ticket number of its own
    included. *)
Definition ticket_at (site person : string) : InsertTicket.t :=
  InsertTicket.mk
    (Some (Some "CLIENT-7")) (Some (Some march14)) (Some (Some "AMC"))
    None (Some (Some site)) (Some (Some person))
    None None None None None None None None None None None None None None.

Definition plant : InsertTicket.t := ticket_at "Plant" "Ravi".
Definition mill : InsertTicket.t := ticket_at "Mill" "Asha".
Definition dock : InsertTicket.t := ticket_at "Dock" "Kiran".

(** [{ ticketNo: "TKT-1999-999" }] *)
Definition renumber : InsertTicket.t :=
  InsertTicket.mk
    (Some (Some "TKT-1999-999")) None None None None None None None None None
    None None None None None None None None None None.

(** [{ ticketStatus: "Closed" }] *)
Definition close : InsertTicket.t :=
  InsertTicket.mk
    None None None None None None None None None None
    None None (Some (Some "Closed")) None None None None None None None.

(** [{ name: "Asha", kmIn: 100, kmOut: 175, totalKm: 0 }] *)
Definition asha : InsertReport.t :=
  InsertReport.mk
    (Some (Some "Asha")) (Some (Some march14)) (Some (Some 100%Z))
    (Some (Some 175%Z)) None None None None None None None None
    (Some (Some 0%Z)) None None.

(** [{ amount: "40.00" }] *)
Definition pay : InsertReport.t :=
  InsertReport.mk
    None None None None None None None None None None None None None
    (Some (Some "40.00")) None.

(** The store after one ticket, and after one report. *)
Definition one_ticket : Db := snd (createTicket 2025 plant Props.fresh).
Definition one_report : Db := snd (createReport asha Props.fresh).

(** Create two tickets, delete the first, create a third. *)
Definition after_delete : outcome (option Ticket.t) * Db :=
  let db1 := snd (createTicket 2025 plant Props.fresh) in
  let db2 := snd (createTicket 2025 mill db1) in
  let db3 := snd (deleteTicket 1 db2) in
  createTicket 2025 dock db3.

(** A report row of a day without travel, as the API returns it. *)
Definition idle : Report.t :=
  Report.mk 1 (Some "Asha") (Some march14) (Some 0%Z) (Some 0%Z)
    (Some "Office") None None None None None None (Some "None")
    (Some 0%Z) (Some "0.00") None.

(** A rendering of dates, day first. *)
Definition day_first (d : Sql.Date) : string :=
  pretty (Sql.day d) +:+ "/" +:+ pretty (Sql.month d) +:+ "/"
  +:+ pretty (Sql.year d).

End Samples.

(** ** The users table and its storage methods *)

Module Users.
Import Storage.

(** A row of [users]; both columns are NOT NULL. *)
Module User.
Record t : Type := mk {
  id : Z;
  userId : string;
  password : string
}.
End User.

(** [InsertUser] *)
Module InsertUser.
Record t : Type := mk {
  userId : string;
  password : string
}.
End InsertUser.

Definition user_values (id : Z) (v : InsertUser.t) : User.t :=
  {| User.id := id;
     User.userId := InsertUser.userId v;
     User.password := InsertUser.password v |}.

(** A storage method on the users table alone. *)
Definition U (A : Type) : Type := Table User.t → outcome A * Table User.t.

(** [result[0] || undefined] of [select().from(users).where(eq(users.id, id))] *)
Definition getUser (id : Z) : U (option User.t) := λ users,
  (Ok (head (Sql.where_ (Sql.eq_id User.id id) (rows users))), users).

(** The same with [eq(users.userId, userId)]: the text is compared by
    the database, under the collation of the column. *)
Definition getUserByUserId (w : Sql.collation) (userId : string)
    : U (option User.t) := λ users,
  (Ok (head (Sql.where_ (Sql.eq_text w (λ u, Some (User.userId u)) userId)
               (rows users))), users).

(** Insert, then read back under [insertId]; returns [newUser!]. *)
Definition createUser (user : InsertUser.t) : U (option User.t) := λ users,
  let insertId := auto_increment users in
  getUser insertId
    {| rows := rows users ++ [user_values insertId user];
       auto_increment := insertId + 1 |}.

End Users.

(** ** The routes: registerRoutes *)

Module Routes.
Import Schema Storage Users.

(** [req.session.user] *)
Record SessionUser : Type := mkSessionUser {
  id : Z;
  userId : string
}.

(** What a request meets: the two stores and the session that its
    cookie names.  The expiry of the cookie is not modelled. *)
Record State : Type := mkState {
  users : Table User.t;
  db : Db;
  session : option SessionUser
}.

(** The bodies sent with [res.json]; [nothing] is an undefined body. *)
Inductive json : Type :=
| error (message : string)
| invalid (message : string)
| success
| logged_in (user : SessionUser)
| auth_status (authenticated : bool) (user : option SessionUser)
| ticket (t : Ticket.t)
| ticket_list (l : list Ticket.t)
| report (r : Report.t)
| report_list (l : list Report.t)
| nothing.

(** A response: its status (200 unless [res.status] is called), the
    headers the handler sets itself, and its body. *)
Record Response : Type := mkResponse {
  status : nat;
  headers : list (string * string);
  body : json
}.

Definition respond (status : nat) (body : json) : Response :=
  {| status := status; headers := []; body := body |}.

(** The value of [schema.parse(req.body)]: the parsed input, or a
    ZodError. *)
Inductive parsed (A : Type) : Type :=
| Valid (a : A)
| ZodError.
Arguments Valid {A} _.
Arguments ZodError {A}.

(** The requests the server routes.  An [id] is the number that
    [parseInt(req.params.id)] gives; query values and the two fields of
    a login body may be absent. *)
Inductive request : Type :=
| Login (userId password : option string)
| Logout
| AuthStatus
| ListTickets (search status projectType : option string)
| GetTicket (id : Z)
| PostTicket (body : parsed InsertTicket.t)
| PutTicket (id : Z) (body : InsertTicket.t)
| DeleteTicket (id : Z)
| ListReports (search fromDate toDate : option string)
| GetReport (id : Z)
| PostReport (body : parsed InsertReport.t)
| PutReport (id : Z) (body : InsertReport.t)
| DeleteReport (id : Z)
| ExportTickets
| ExportReports.

Definition handler : Type := State → Response * State.

(** [requireAuth] in front of a handler. *)
Definition requireAuth (next : handler) : handler := λ st,
  match session st with
  | None => (respond 401 (error "Authentication required"), st)
  | Some _ => next st
  end.

(** Running a storage method on the database of the state. *)
Definition storage {A : Type} (m : M A) (st : State) : outcome A * State :=
  let '(result, db') := m (db st) in
  (result, {| users := users st; db := db'; session := session st |}).

(** [POST /api/login] *)
Definition login (w : Sql.collation) (userId password : option string)
    : handler := λ st,
  match userId, password with
  | Some uid, Some pw =>
      if String.eqb uid EmptyString || String.eqb pw EmptyString then
        (respond 400 (error "User ID and password are required"), st)
      else
        match getUserByUserId w uid (users st) with
        | (Ok (Some user), users') =>
            if String.eqb (User.password user) pw then
              let u := {| id := User.id user; userId := User.userId user |} in
              (respond 200 (logged_in u),
               {| users := users'; db := db st; session := Some u |})
            else
              (respond 401 (error "Invalid credentials"),
               {| users := users'; db := db st; session := session st |})
        | (Ok None, users') =>
            (respond 401 (error "Invalid credentials"),
             {| users := users'; db := db st; session := session st |})
        | (Err _, users') =>
            (respond 500 (error "Internal server error"),
             {| users := users'; db := db st; session := session st |})
        end
  | _, _ => (respond 400 (error "User ID and password are required"), st)
  end.

(** [POST /api/logout]: the session is destroyed. *)
Definition logout : handler := λ st,
  (respond 200 success,
   {| users := users st; db := db st; session := None |}).

(** [GET /api/auth/status] *)
Definition auth_status_route : handler := λ st,
  match session st with
  | Some u => (respond 200 (auth_status true (Some u)), st)
  | None => (respond 200 (auth_status false None), st)
  end.

(** [GET /api/tickets] *)
Definition list_tickets (w : Sql.collation)
    (search status projectType : option string) : handler := λ st,
  let filters :=
    {| TicketFilters.search := search;
       TicketFilters.status := status;
       TicketFilters.projectType := projectType |} in
  match storage (getTickets w (Some filters)) st with
  | (Ok tickets, st') => (respond 200 (ticket_list tickets), st')
  | (Err _, st') => (respond 500 (error "Failed to fetch tickets"), st')
  end.

(** [GET /api/tickets/:id] *)
Definition get_ticket (id : Z) : handler := λ st,
  match storage (getTicketById id) st with
  | (Ok None, st') => (respond 404 (error "Ticket not found"), st')
  | (Ok (Some t), st') => (respond 200 (ticket t), st')
  | (Err _, st') => (respond 500 (error "Failed to fetch ticket"), st')
  end.

(** [POST /api/tickets]; [newTicket!] is sent as it is. *)
Definition post_ticket (year : nat) (body : parsed InsertTicket.t)
    : handler := λ st,
  match body with
  | ZodError => (respond 400 (invalid "Invalid ticket data"), st)
  | Valid ticketData =>
      match storage (createTicket year ticketData) st with
      | (Ok (Some t), st') => (respond 201 (ticket t), st')
      | (Ok None, st') => (respond 201 nothing, st')
      | (Err _, st') => (respond 500 (error "Failed to create ticket"), st')
      end
  end.

(** [PUT /api/tickets/:id]: the body goes to the store unvalidated. *)
Definition put_ticket (id : Z) (updateData : InsertTicket.t) : handler := λ st,
  match storage (updateTicket id updateData) st with
  | (Ok None, st') => (respond 404 (error "Ticket not found"), st')
  | (Ok (Some t), st') => (respond 200 (ticket t), st')
  | (Err _, st') => (respond 500 (error "Failed to update ticket"), st')
  end.

(** [DELETE /api/tickets/:id] *)
Definition delete_ticket (id : Z) : handler := λ st,
  match storage (deleteTicket id) st with
  | (Ok false, st') => (respond 404 (error "Ticket not found"), st')
  | (Ok true, st') => (respond 200 success, st')
  | (Err _, st') => (respond 500 (error "Failed to delete ticket"), st')
  end.

(** [GET /api/reports] *)
Definition list_reports (w : Sql.collation)
    (search fromDate toDate : option string) : handler := λ st,
  let filters :=
    {| ReportFilters.search := search;
       ReportFilters.fromDate := fromDate;
       ReportFilters.toDate := toDate |} in
  match storage (getReports w (Some filters)) st with
  | (Ok reports, st') => (respond 200 (report_list reports), st')
  | (Err _, st') => (respond 500 (error "Failed to fetch reports"), st')
  end.

(** [GET /api/reports/:id] *)
Definition get_report (id : Z) : handler := λ st,
  match storage (getReportById id) st with
  | (Ok None, st') => (respond 404 (error "Report not found"), st')
  | (Ok (Some r), st') => (respond 200 (report r), st')
  | (Err _, st') => (respond 500 (error "Failed to fetch report"), st')
  end.

(** [POST /api/reports] *)
Definition post_report (body : parsed InsertReport.t) : handler := λ st,
  match body with
  | ZodError => (respond 400 (invalid "Invalid report data"), st)
  | Valid reportData =>
      match storage (createReport reportData) st with
      | (Ok (Some r), st') => (respond 201 (report r), st')
      | (Ok None, st') => (respond 201 nothing, st')
      | (Err _, st') => (respond 500 (error "Failed to create report"), st')
      end
  end.

(** [PUT /api/reports/:id] *)
Definition put_report (id : Z) (updateData : InsertReport.t) : handler := λ st,
  match storage (updateReport id updateData) st with
  | (Ok None, st') => (respond 404 (error "Report not found"), st')
  | (Ok (Some r), st') => (respond 200 (report r), st')
  | (Err _, st') => (respond 500 (error "Failed to update report"), st')
  end.

(** [DELETE /api/reports/:id] *)
Definition delete_report (id : Z) : handler := λ st,
  match storage (deleteReport id) st with
  | (Ok false, st') => (respond 404 (error "Report not found"), st')
  | (Ok true, st') => (respond 200 success, st')
  | (Err _, st') => (respond 500 (error "Failed to delete report"), st')
  end.

Definition excel_headers (filename : string) : list (string * string) :=
  [("Content-Type",
    "application/vnd.openxmlformats-officedocument.spreadsheetml.sheet");
   ("Content-Disposition", "attachment; filename=" +:+ filename)].

(** [GET /api/tickets/export/excel]: every ticket, as JSON. *)
Definition export_tickets (w : Sql.collation) : handler := λ st,
  match storage (getTickets w None) st with
  | (Ok tickets, st') =>
      ({| status := 200; headers := excel_headers "tickets.xlsx";
          body := ticket_list tickets |}, st')
  | (Err _, st') => (respond 500 (error "Failed to export tickets"), st')
  end.

(** [GET /api/reports/export/excel] *)
Definition export_reports (w : Sql.collation) : handler := λ st,
  match storage (getReports w None) st with
  | (Ok reports, st') =>
      ({| status := 200; headers := excel_headers "reports.xlsx";
          body := report_list reports |}, st')
  | (Err _, st') => (respond 500 (error "Failed to export reports"), st')
  end.

(** The server: [w] is the collation of the database and [year] the
    year of the clock when the request arrives. *)
Definition handle (w : Sql.collation) (year : nat) (req : request) : handler :=
  match req with
  | Login userId password => login w userId password
  | Logout => logout
  | AuthStatus => auth_status_route
  | ListTickets search status projectType =>
      requireAuth (list_tickets w search status projectType)
  | GetTicket id => requireAuth (get_ticket id)
  | PostTicket body => requireAuth (post_ticket year body)
  | PutTicket id body => requireAuth (put_ticket id body)
  | DeleteTicket id => requireAuth (delete_ticket id)
  | ListReports search fromDate toDate =>
      requireAuth (list_reports w search fromDate toDate)
  | GetReport id => requireAuth (get_report id)
  | PostReport body => requireAuth (post_report body)
  | PutReport id body => requireAuth (put_report id body)
  | DeleteReport id => requireAuth (delete_report id)
  | ExportTickets => requireAuth (export_tickets w)
  | ExportReports => requireAuth (export_reports w)
  end.

(** The requests behind [requireAuth]. *)
Definition guarded (req : request) : bool :=
  match req with
  | Login _ _ | Logout | AuthStatus => false
  | _ => true
  end.

(** Requests served one after the other, each in the year given with
    it; the responses come back in order. *)
Fixpoint serve (w : Sql.collation) (reqs : list (nat * request)) (st : State)
    : list Response * State :=
  match reqs with
  | [] => ([], st)
  | (year, req) :: reqs' =>
      let '(r, st') := handle w year req st in
      let '(rs, st'') := serve w reqs' st' in
      (r :: rs, st'')
  end.

End Routes.

(** ** Sequences of storage calls *)

Module Calls.
Import Schema Storage.

(** A call of a method of the storage layer, with its arguments and,
    for [createTicket], the year of the clock. *)
Inductive call : Type :=
| getTickets (w : Sql.collation) (filters : option TicketFilters.t)
| getTicketById (id : Z)
| createTicket (year : nat) (ticket : InsertTicket.t)
| updateTicket (id : Z) (ticket : InsertTicket.t)
| deleteTicket (id : Z)
| getReports (w : Sql.collation) (filters : option ReportFilters.t)
| getReportById (id : Z)
| createReport (report : InsertReport.t)
| updateReport (id : Z) (report : InsertReport.t)
| deleteReport (id : Z).

(** The database after a call. *)
Definition step (db : Db) (c : call) : Db :=
  match c with
  | getTickets w filters => snd (Storage.getTickets w filters db)
  | getTicketById id => snd (Storage.getTicketById id db)
  | createTicket year ticket => snd (Storage.createTicket year ticket db)
  | updateTicket id ticket => snd (Storage.updateTicket id ticket db)
  | deleteTicket id => snd (Storage.deleteTicket id db)
  | getReports w filters => snd (Storage.getReports w filters db)
  | getReportById id => snd (Storage.getReportById id db)
  | createReport report => snd (Storage.createReport report db)
  | updateReport id report => snd (Storage.updateReport id report db)
  | deleteReport id => snd (Storage.deleteReport id db)
  end.

(** The database after the calls, made one after the other. *)
Definition run (calls : list call) (db : Db) : Db := foldl step db calls.

(** Tickets created one after the other in the same year: what each
    call returns, in order, and the database in the end. *)
Fixpoint createTickets (year : nat) (inputs : list InsertTicket.t) (db : Db)
    : list (outcome (option Ticket.t)) * Db :=
  match inputs with
  | [] => ([], db)
  | ticket :: inputs' =>
      let '(result, db') := Storage.createTicket year ticket db in
      let '(results, db'') := createTickets year inputs' db' in
      (result :: results, db'')
  end.

(** The insert input is dated in the year. *)
Definition dated_in (year : nat) (ticket : InsertTicket.t) : Prop :=
  ∃ d, InsertTicket.date ticket = Some (Some d) ∧ Sql.year d = year.

(** No two rows of a table share a key. *)
Definition distinct_keys {Row : Type} (T : table_of Row) (db : Db) : Prop :=
  NoDup (map (key T) (rows (get T db))).

(** Keys are distinct and were handed out by the counters. *)
Definition well_keyed (db : Db) : Prop :=
  Props.consistent db ∧
  distinct_keys tickets_table db ∧ distinct_keys reports_table db.

(** One value of a filter extends another when it keeps what the other
    supplies. *)
Definition extends (f f' : option string) : Prop :=
  Props.supplied f = None ∨ Props.supplied f' = Props.supplied f.

End Calls.

(** ** The dashboard: statistics *)

Module Dashboard.
Import Schema.

(** [ticketStats] *)
Record TicketStats : Type := mkTicketStats {
  total : nat;
  open : nat;
  inProgress : nat;
  closed : nat
}.

(** [tickets.filter(t => t.ticketStatus === text)] *)
Definition with_status (text : string) (tickets : list Ticket.t)
    : list Ticket.t :=
  filter (λ t, Ticket.ticketStatus t = Some text) tickets.

Definition ticketStats (tickets : list Ticket.t) : TicketStats :=
  {| total := length tickets;
     open := length (with_status "Open" tickets);
     inProgress := length (with_status "In Progress" tickets);
     closed := length (with_status "Closed" tickets) |}.

End Dashboard.

(** ** Vocabulary for the sheet *)

Module Sheet.

(** A cell with something to show, or the empty string: a string, or
    a number other than zero. *)
Definition shown (c : Js.value) : Prop :=
  match c with
  | Js.Str _ => True
  | Js.Num n => n ≠ 0%Z
  | Js.Undefined | Js.Null => False
  end.

(** The number of columns of the sheet of each kind. *)
Definition columns (input : Excel.records) : nat :=
  match input with
  | Excel.tickets _ => 20
  | Excel.reports _ => 15
  end.

(** The statuses that the statistics count. *)
Definition counted (t : Schema.Ticket.t) : Prop :=
  Schema.Ticket.ticketStatus t = Some "Open" ∨
  Schema.Ticket.ticketStatus t = Some "In Progress" ∨
  Schema.Ticket.ticketStatus t = Some "Closed".

End Sheet.

(** ** Vocabulary for the routes *)

Module RouteProps.
Import Storage Users Routes.

(** The state with another database. *)
Definition with_db (st : State) (db' : Db) : State :=
  {| users := users st; db := db'; session := session st |}.

(** The state with a user in the session. *)
Definition signed_in_as (st : State) (u : SessionUser) : State :=
  {| users := users st; db := db st; session := Some u |}.

(** The requests that only read. *)
Definition reads (req : request) : bool :=
  match req with
  | AuthStatus | ListTickets _ _ _ | GetTicket _ | ListReports _ _ _
  | GetReport _ | ExportTickets | ExportReports => true
  | _ => false
  end.

(** The requests that may change the session. *)
Definition signs (req : request) : bool :=
  match req with
  | Login _ _ | Logout => true
  | _ => false
  end.

(** The user a login with this user id is checked against. *)
Definition account (w : Sql.collation) (userId : string) (st : State)
    : option User.t :=
  head (filter (λ u, Sql.weights w (User.userId u) = Sql.weights w userId)
          (rows (users st))).

(** The session entry of a user. *)
Definition entry (u : User.t) : SessionUser :=
  {| id := User.id u; userId := User.userId u |}.

End RouteProps.

(** ** More sample data *)

Module Samples2.
Import Schema Storage Users Routes.

Definition admin : User.t := User.mk 1 "admin" "admin123".

Definition one_user : Table User.t := mkTable [admin] 2.

(** A state with one user and one ticket, nobody logged in. *)
Definition signed_out : State :=
  {| users := one_user; db := Samples.one_ticket; session := None |}.

(** The same with the user logged in. *)
Definition signed_in : State :=
  {| users := one_user; db := Samples.one_ticket;
     session := Some (mkSessionUser 1 "admin") |}.

(** The two stored rows of the samples. *)
Definition plant_row : Ticket.t :=
  ticket_values 1
    (InsertTicket.with_number_and_status Samples.plant "TKT-2025-001" "Open").

Definition asha_row : Report.t := report_values 1 Samples.asha.

(** A store with one ticket and one report. *)
Definition both : Db :=
  mkDb (mkTable [plant_row] 2) (mkTable [asha_row] 2).

End Samples2.

(** ** Facts about the queries *)

Module QueryFacts.
Import Schema Storage Props.

Lemma table_eta {Row : Type} (t : Table Row) :
  {| rows := rows t; auto_increment := auto_increment t |} = t.
Proof. by destruct t. Qed.

Lemma is_true_eq_id {Row : Type} (column : Row → Z) id r :
  Sql.is_true (Sql.eq_id column id r) = true ↔ column r = id.
Proof. unfold Sql.eq_id; simpl. apply Z.eqb_eq. Qed.

Lemma where_eq_id {Row : Type} (column : Row → Z) id (l : list Row) :
  Sql.where_ (Sql.eq_id column id) l = filter (λ r, column r = id) l.
Proof. apply list_filter_iff. intros r. apply is_true_eq_id. Qed.

Lemma where_year_is y (l : list Ticket.t) :
  Sql.where_ (Sql.year_is Ticket.date y) l = filter (λ t, dated_in y t = true) l.
Proof.
  apply list_filter_iff. intros t. unfold Sql.year_is, dated_in.
  by destruct (Ticket.date t).
Qed.

(** No row carries a key that the counter has not handed out yet. *)
Lemma filter_key_fresh {Row : Type} (column : Row → Z) bound (l : list Row) :
  Forall (λ r, (column r < bound)%Z) l → filter (λ r, column r = bound) l = [].
Proof.
  induction 1 as [|r l Hr _ IH]; [done|].
  rewrite filter_cons_False; [done | lia].
Qed.

Lemma getTicketById_eq id db :
  getTicketById id db = (Ok (stored_ticket db id), db).
Proof.
  unfold getTicketById, try_catch, stored_ticket; simpl.
  by rewrite where_eq_id.
Qed.

Lemma getReportById_eq id db :
  getReportById id db = (Ok (stored_report db id), db).
Proof.
  unfold getReportById, try_catch, stored_report; simpl.
  by rewrite where_eq_id.
Qed.

End QueryFacts.

(** ** Ticket numbers *)

Module NumberFacts.
Import Schema Storage Props QueryFacts.

Lemma length_append (s1 s2 : string) :
  String.length (s1 +:+ s2) = String.length s1 + String.length s2.
Proof.
  induction s1 as [|c s1 IH]; [done|].
  change (String c s1 +:+ s2) with (String c (s1 +:+ s2)).
  simpl. by rewrite IH.
Qed.

Lemma length_repeat_string n c :
  String.length (Js.repeat_string n (String c EmptyString)) = n.
Proof.
  induction n as [|n IH]; [done|].
  cbn [Js.repeat_string]. rewrite length_append, IH. done.
Qed.

Lemma length_padStart n c s :
  String.length (Js.padStart n c s) = Nat.max n (String.length s).
Proof.
  unfold Js.padStart. rewrite length_append, length_repeat_string. lia.
Qed.

(** Below one thousand the decimal form has at most three digits. *)
Lemma length_digits_small n :
  (n < 1000)%nat → (String.length (pretty n) ≤ 3)%nat.
Proof.
  intros Hn.
  assert (Hall : forallb (λ k, (String.length (pretty k) <=? 3)%nat) (seq 0 1000) = true)
    by (vm_compute; reflexivity).
  rewrite forallb_forall in Hall.
  apply Nat.leb_le, Hall, in_seq. lia.
Qed.

Lemma stored_ticket_new t db :
  keys_below tickets_table db →
  Ticket.id t = auto_increment (tickets db) →
  stored_ticket (with_ticket t db) (auto_increment (tickets db)) = Some t.
Proof.
  intros Hk Hid. unfold stored_ticket, with_ticket; simpl.
  unfold keys_below in Hk; simpl in Hk.
  rewrite filter_app, (filter_key_fresh Ticket.id _ _ Hk).
  rewrite filter_cons_True by exact Hid. done.
Qed.

Lemma createTicket_eq year ticket db :
  keys_below tickets_table db →
  createTicket year ticket db =
    (Ok (Some (numbered year ticket db)), with_ticket (numbered year ticket db) db).
Proof.
  intros Hk. cbv [createTicket try_catch mbind M_bind count insert].
  cbn [get put tickets_table rows auto_increment].
  rewrite getTicketById_eq, where_year_is.
  fold (tickets_dated_in year db). fold (numbered year ticket db).
  fold (with_ticket (numbered year ticket db) db).
  by rewrite (stored_ticket_new (numbered year ticket db) db Hk).
Qed.

Lemma keys_below_with_ticket t db :
  keys_below tickets_table db →
  Ticket.id t = auto_increment (tickets db) →
  keys_below tickets_table (with_ticket t db).
Proof.
  unfold keys_below; simpl. intros Hk Hid.
  apply Forall_app; split.
  - eapply Forall_impl; [exact Hk|]. simpl. intros; lia.
  - apply Forall_singleton. lia.
Qed.

Lemma tickets_dated_in_with_ticket y t db :
  tickets_dated_in y (with_ticket t db) =
    tickets_dated_in y db + (if dated_in y t then 1 else 0).
Proof.
  unfold tickets_dated_in, with_ticket; simpl.
  rewrite filter_app, length_app, filter_singleton by exact [].
  by destruct (dated_in y t); case_decide.
Qed.

End NumberFacts.

(** ** Facts about update and delete *)

Module WriteFacts.
Import Schema Storage Props QueryFacts.

Section Generic.
Context {Row : Type}.

(** Rewriting the rows that match changes nothing when none does. *)
Lemma map_unmatched (column : Row → Z) id (set : Row → Row) (l : list Row) :
  filter (λ r, column r = id) l = [] →
  map (λ r, if Sql.is_true (Sql.eq_id column id r) then set r else r) l = l.
Proof.
  induction l as [|r l IH]; [done|].
  rewrite filter_cons. case_decide as Hr; [done|]. intros Hl.
  cbn [map]. rewrite (IH Hl). unfold Sql.eq_id; simpl.
  by destruct (Z.eqb_spec (column r) id).
Qed.

Lemma kept_unmatched (column : Row → Z) id (l : list Row) :
  filter (λ r, Sql.is_true (Sql.eq_id column id r) = false) l =
  filter (λ r, column r ≠ id) l.
Proof.
  apply list_filter_iff. intros r. unfold Sql.eq_id; simpl.
  by rewrite Z.eqb_neq.
Qed.

Lemma filter_differs_all (column : Row → Z) id (l : list Row) :
  filter (λ r, column r = id) l = [] → filter (λ r, column r ≠ id) l = l.
Proof.
  induction l as [|r l IH]; [done|].
  rewrite !filter_cons. case_decide; [done|]. intros Hl.
  case_decide; [|done]. by rewrite (IH Hl).
Qed.

Lemma filter_differs_twice (column : Row → Z) id (l : list Row) :
  filter (λ r, column r = id) (filter (λ r, column r ≠ id) l) = [].
Proof.
  induction l as [|r l IH]; [done|].
  rewrite filter_cons. case_decide as Hr; [|done].
  by rewrite filter_cons_False.
Qed.

(** Rows are counted: dropping the matching ones shortens the list
    exactly when there is one. *)
Lemma length_differs (column : Row → Z) id (l : list Row) :
  length (filter (λ r, column r ≠ id) l) + length (filter (λ r, column r = id) l)
  = length l.
Proof.
  induction l as [|r l IH]; [done|].
  rewrite !filter_cons. repeat case_decide; simpl; lia.
Qed.

End Generic.

End WriteFacts.

(** ** Facts about the stored rows *)

Module StoreFacts.
Import Schema Storage Props QueryFacts WriteFacts.

Lemma deleteTicket_eq id db :
  deleteTicket id db =
    (Ok (bool_decide (is_Some (stored_ticket db id))), without_ticket id db).
Proof.
  cbv [deleteTicket try_catch mbind M_bind mret M_ret delete].
  cbn [get put tickets_table rows auto_increment].
  rewrite (kept_unmatched Ticket.id). fold (without_ticket id db).
  f_equal. f_equal. unfold stored_ticket.
  pose proof (length_differs Ticket.id id (rows (tickets db))) as Hlen.
  destruct (filter (λ t, Ticket.id t = id) (rows (tickets db))) as [|t l];
    simpl in *.
  - apply Nat.ltb_ge. lia.
  - apply Nat.ltb_lt. lia.
Qed.

Lemma deleteReport_eq id db :
  deleteReport id db =
    (Ok (bool_decide (is_Some (stored_report db id))), without_report id db).
Proof.
  cbv [deleteReport try_catch mbind M_bind mret M_ret delete].
  cbn [get put reports_table rows auto_increment].
  rewrite (kept_unmatched Report.id). fold (without_report id db).
  f_equal. f_equal. unfold stored_report.
  pose proof (length_differs Report.id id (rows (reports db))) as Hlen.
  destruct (filter (λ r, Report.id r = id) (rows (reports db))) as [|r l];
    simpl in *.
  - apply Nat.ltb_ge. lia.
  - apply Nat.ltb_lt. lia.
Qed.

Lemma head_filter_None {A : Type} (P : A → Prop) `{!∀ x, Decision (P x)} l :
  head (filter P l) = None → filter P l = [].
Proof. by destruct (filter P l). Qed.

Lemma without_ticket_absent id db :
  stored_ticket db id = None → without_ticket id db = db.
Proof.
  unfold stored_ticket, without_ticket. intros H%head_filter_None.
  rewrite (filter_differs_all Ticket.id id _ H), table_eta. by destruct db.
Qed.

Lemma without_report_absent id db :
  stored_report db id = None → without_report id db = db.
Proof.
  unfold stored_report, without_report. intros H%head_filter_None.
  rewrite (filter_differs_all Report.id id _ H), table_eta. by destruct db.
Qed.

Lemma stored_ticket_without id db : stored_ticket (without_ticket id db) id = None.
Proof.
  unfold stored_ticket, without_ticket; simpl.
  by rewrite (filter_differs_twice Ticket.id).
Qed.

Lemma stored_report_without id db : stored_report (without_report id db) id = None.
Proof.
  unfold stored_report, without_report; simpl.
  by rewrite (filter_differs_twice Report.id).
Qed.

Lemma length_without_ticket id db :
  is_Some (stored_ticket db id) →
  length (rows (tickets (without_ticket id db))) < length (rows (tickets db)).
Proof.
  unfold stored_ticket, without_ticket; simpl. intros [t Ht].
  pose proof (length_differs Ticket.id id (rows (tickets db))).
  destruct (filter (λ t, Ticket.id t = id) (rows (tickets db))); simpl in *;
    [done | lia].
Qed.

Lemma length_without_report id db :
  is_Some (stored_report db id) →
  length (rows (reports (without_report id db))) < length (rows (reports db)).
Proof.
  unfold stored_report, without_report; simpl. intros [t Ht].
  pose proof (length_differs Report.id id (rows (reports db))).
  destruct (filter (λ r, Report.id r = id) (rows (reports db))); simpl in *;
    [done | lia].
Qed.

Lemma filter_key_map {Row : Type} (column : Row → Z) (f : Row → Row) k l :
  (∀ r, column (f r) = column r) →
  filter (λ r, column r = k) (map f l) = map f (filter (λ r, column r = k) l).
Proof.
  intros Hf. induction l as [|r l IH]; [done|].
  cbn [map]. rewrite !filter_cons, Hf, IH. by case_decide.
Qed.

Lemma head_map {A B : Type} (f : A → B) l : head (map f l) = f <$> head l.
Proof. by destruct l. Qed.

Lemma stored_ticket_set id v db k :
  stored_ticket (with_ticket_set id v db) k =
    (λ t, if Sql.is_true (Sql.eq_id Ticket.id id t) then ticket_set v t else t)
      <$> stored_ticket db k.
Proof.
  unfold stored_ticket, with_ticket_set; cbn [tickets rows].
  rewrite filter_key_map, head_map; [done|].
  intros t. by destruct (Sql.is_true _).
Qed.


Lemma updateTicket_eq id v db :
  updateTicket id v db =
    if existsb (λ b, b) (InsertTicket.entries v)
    then (Ok (stored_ticket (with_ticket_set id v db) id), with_ticket_set id v db)
    else (Err "Failed to update ticket", db).
Proof.
  cbv [updateTicket try_catch mbind M_bind update].
  destruct (existsb _ _); [|done].
  cbn [get put tickets_table rows auto_increment].
  by rewrite getTicketById_eq.
Qed.

Lemma updateReport_eq id v db :
  updateReport id v db =
    if existsb (λ b, b) (InsertReport.entries v)
    then (Ok (stored_report (with_report_set id v db) id), with_report_set id v db)
    else (Err "Failed to update report", db).
Proof.
  cbv [updateReport try_catch mbind M_bind update].
  destruct (existsb _ _); [|done].
  cbn [get put reports_table rows auto_increment].
  by rewrite getReportById_eq.
Qed.

Lemma with_ticket_set_absent id v db :
  stored_ticket db id = None → with_ticket_set id v db = db.
Proof.
  unfold stored_ticket, with_ticket_set. intros H%head_filter_None.
  rewrite (map_unmatched Ticket.id id _ _ H), table_eta. by destruct db.
Qed.

Lemma with_report_set_absent id v db :
  stored_report db id = None → with_report_set id v db = db.
Proof.
  unfold stored_report, with_report_set. intros H%head_filter_None.
  rewrite (map_unmatched Report.id id _ _ H), table_eta. by destruct db.
Qed.

Lemma stored_report_new r db :
  keys_below reports_table db →
  Report.id r = auto_increment (reports db) →
  stored_report (with_report r db) (auto_increment (reports db)) = Some r.
Proof.
  intros Hk Hid. unfold stored_report, with_report; simpl.
  unfold keys_below in Hk; simpl in Hk.
  rewrite filter_app, (filter_key_fresh Report.id _ _ Hk).
  rewrite filter_cons_True by exact Hid. done.
Qed.

Lemma createReport_eq report db :
  keys_below reports_table db →
  let r := report_values (auto_increment (reports db)) report in
  createReport report db = (Ok (Some r), with_report r db).
Proof.
  intros Hk r. cbv [createReport try_catch mbind M_bind insert].
  cbn [get put reports_table rows auto_increment].
  rewrite getReportById_eq. fold r. fold (with_report r db).
  by rewrite (stored_report_new r db Hk).
Qed.

End StoreFacts.


(** ** LIKE against substring search *)

Module LikeFacts.
Import Props.








Lemma starts_with_spec needle hay :
  starts_with needle hay = true ↔ ∃ post, hay = needle ++ post.
Proof.
  revert hay. induction needle as [|c needle IH]; intros hay.
  - split; [|done]. by exists hay.
  - destruct hay as [|x hay]; simpl.
    + split; [done | by intros [post ?]].
    + rewrite andb_true_iff, IH. split.
      * intros [->%Ascii.eqb_eq [post ->]]. by exists post.
      * intros [post [= -> ->]]. split; [apply Ascii.eqb_refl | by exists post].
Qed.

(** [occurs_in] is the plain notion of a substring. *)
Lemma occurs_in_spec needle hay :
  occurs_in needle hay = true ↔ ∃ pre post, hay = pre ++ needle ++ post.
Proof.
  induction hay as [|x hay IH]; cbn [occurs_in];
    rewrite orb_true_iff, starts_with_spec.
  - split.
    + intros [[post ->]|]; [|done]. by exists [], post.
    + intros (pre & post & H). left.
      destruct pre; [by exists post|done].
  - rewrite IH. split.
    + intros [[post ->]|(pre & post & ->)]; [by exists [], post|].
      by exists (x :: pre), post.
    + intros (pre & post & H). destruct pre as [|y pre].
      * left. by exists post.
      * right. injection H as -> ->. by exists pre, post.
Qed.

End LikeFacts.

(** ** Facts about the list queries *)

Module ListFacts.
Import Schema Storage Props LikeFacts.

Lemma date_leb_total a b : Sql.date_leb a b = true ∨ Sql.date_leb b a = true.
Proof.
  unfold Sql.date_leb.
  repeat (match goal with |- context [(?x <? ?y)] =>
            destruct (Nat.ltb_spec x y) end); auto; try lia.
  rewrite !Nat.leb_le. lia.
Qed.

Lemma date_leb_trans a b c :
  Sql.date_leb a b = true → Sql.date_leb b c = true → Sql.date_leb a c = true.
Proof.
  unfold Sql.date_leb.
  repeat (match goal with |- context [(?x <? ?y)] =>
            destruct (Nat.ltb_spec x y) end);
    rewrite ?Nat.leb_le; try done; try lia.
Qed.

Section Order.
Context {Row : Type} (column : Row → Js.nullable Sql.Date).

Global Instance desc_total : Total (Sql.desc column).
Proof.
  intros r1 r2. unfold Sql.desc, Sql.date_below.
  destruct (column r1) as [a|], (column r2) as [b|]; auto.
  destruct (date_leb_total a b); auto.
Qed.

Global Instance desc_trans : Transitive (Sql.desc column).
Proof.
  intros r1 r2 r3. unfold Sql.desc, Sql.date_below.
  destruct (column r1) as [a|], (column r2) as [b|], (column r3) as [c|];
    try done.
  intros H1 H2. by apply (date_leb_trans c b a).
Qed.


Lemma listed_Permutation conditions (l : list Row) :
  listed column conditions l ≡ₚ
    match conditions with
    | [] => l
    | _ :: _ => Sql.where_ (Sql.and_ conditions) l
    end.
Proof. apply merge_sort_Permutation. Qed.

End Order.

Lemma is_true_or3 a b :
  Sql.is_true (Sql.or3 a b) = Sql.is_true a || Sql.is_true b.
Proof. by destruct a as [[]|], b as [[]|]. Qed.

Lemma is_true_and3 a b :
  Sql.is_true (Sql.and3 a b) = Sql.is_true a && Sql.is_true b.
Proof. by destruct a as [[]|], b as [[]|]. Qed.

Section Logic.
Context {Row : Type}.
Implicit Types (c : Sql.condition (Row := Row)) (r : Row).

Lemma is_true_foldl_or3 r a cs :
  Sql.is_true (foldl (λ acc c, Sql.or3 acc (c r)) a cs)
  = Sql.is_true a || existsb (λ c, Sql.is_true (c r)) cs.
Proof.
  revert a. induction cs as [|c cs IH]; intros a; simpl.
  - by rewrite orb_false_r.
  - by rewrite IH, is_true_or3, orb_assoc.
Qed.

Lemma is_true_foldl_and3 r a cs :
  Sql.is_true (foldl (λ acc c, Sql.and3 acc (c r)) a cs)
  = Sql.is_true a && forallb (λ c, Sql.is_true (c r)) cs.
Proof.
  revert a. induction cs as [|c cs IH]; intros a; simpl.
  - by rewrite andb_true_r.
  - by rewrite IH, is_true_and3, andb_assoc.
Qed.

Lemma is_true_or_ r c cs :
  Sql.is_true (Sql.or_ (c :: cs) r) = existsb (λ c, Sql.is_true (c r)) (c :: cs).
Proof. apply is_true_foldl_or3. Qed.

Lemma is_true_and_ r cs :
  Sql.is_true (Sql.and_ cs r) = forallb (λ c, Sql.is_true (c r)) cs.
Proof. destruct cs as [|c cs]; [done|]. apply is_true_foldl_and3. Qed.



Lemma is_true_gte (column : Row → Js.nullable Sql.Date) bound r :
  Sql.is_true (Sql.gte column bound r) = on_or_after bound (column r).
Proof.
  unfold Sql.gte, on_or_after.
  by destruct (column r), (Sql.parse_date bound).
Qed.

Lemma is_true_lte (column : Row → Js.nullable Sql.Date) bound r :
  Sql.is_true (Sql.lte column bound r) = on_or_before bound (column r).
Proof.
  unfold Sql.lte, on_or_before.
  by destruct (column r), (Sql.parse_date bound).
Qed.

Lemma filter_all (P : Row → Prop) `{!∀ r, Decision (P r)} (l : list Row) :
  (∀ r, P r) → filter P l = l.
Proof.
  intros HP. induction l as [|r l IH]; [done|].
  by rewrite filter_cons_True, IH.
Qed.

(** A query with conditions keeps the rows on which each one holds. *)
Lemma listed_selected (column : Row → Js.nullable Sql.Date) cs
    (selected : Row → bool) (l : list Row) :
  (∀ r, forallb (λ c, Sql.is_true (c r)) cs = selected r) →
  listed column cs l ≡ₚ filter (λ r, selected r = true) l.
Proof.
  intros Hsel. rewrite listed_Permutation. destruct cs as [|c cs].
  - rewrite filter_all; [done|]. intros r. by rewrite <- Hsel.
  - unfold Sql.where_. erewrite list_filter_iff; [done|].
    intros r. by rewrite is_true_and_, Hsel.
Qed.

End Logic.

Lemma getTickets_eq w filters db :
  getTickets w filters db =
    (Ok (listed Ticket.date (ticket_conditions w (ticket_filter_values filters))
           (rows (tickets db))), db).
Proof.
  unfold getTickets, try_catch, select, listed, ticket_filter_values,
    ticket_conditions, supplied, Js.truthy_string, Js.if_truthy.
  destruct filters as [[[s|] [st|] [p|]]|]; simpl;
    repeat (match goal with |- context [String.eqb ?x ?y] =>
              destruct (String.eqb x y) end); reflexivity.
Qed.

Lemma getReports_eq w filters db :
  getReports w filters db =
    (Ok (listed Report.date (report_conditions w (report_filter_values filters))
           (rows (reports db))), db).
Proof.
  unfold getReports, try_catch, select, listed, report_filter_values,
    report_conditions, supplied, Js.truthy_string, Js.if_truthy.
  destruct filters as [[[s|] [st|] [p|]]|]; simpl;
    repeat (match goal with |- context [String.eqb ?x ?y] =>
              destruct (String.eqb x y) end); reflexivity.
Qed.



End ListFacts.

(** ** The counters stay ahead of the keys *)

Module InvariantFacts.
Import Schema Storage Props QueryFacts NumberFacts StoreFacts.

Lemma consistent_fresh : consistent fresh.
Proof. split; constructor. Qed.

Lemma keys_below_with_report r db :
  keys_below reports_table db →
  Report.id r = auto_increment (reports db) →
  keys_below reports_table (with_report r db).
Proof.
  unfold keys_below; simpl. intros Hk Hid.
  apply Forall_app; split.
  - eapply Forall_impl; [exact Hk|]. simpl. intros; lia.
  - apply Forall_singleton. lia.
Qed.

Lemma consistent_createTicket year ticket db :
  consistent db → consistent (snd (createTicket year ticket db)).
Proof.
  intros [Ht Hr]. rewrite createTicket_eq by exact Ht. split.
  - by apply keys_below_with_ticket.
  - exact Hr.
Qed.

Lemma consistent_createReport report db :
  consistent db → consistent (snd (createReport report db)).
Proof.
  intros [Ht Hr]. rewrite createReport_eq by exact Hr. split.
  - exact Ht.
  - by apply keys_below_with_report.
Qed.

Lemma consistent_updateTicket id v db :
  consistent db → consistent (snd (updateTicket id v db)).
Proof.
  intros [Ht Hr]. rewrite updateTicket_eq.
  destruct (existsb _ _); [|done]. split; [|exact Hr].
  unfold keys_below in *; simpl in *. apply Forall_fmap.
  eapply Forall_impl; [exact Ht|]. intros t Hlt. simpl.
  by destruct (Ticket.id t =? id)%Z.
Qed.

Lemma consistent_updateReport id v db :
  consistent db → consistent (snd (updateReport id v db)).
Proof.
  intros [Ht Hr]. rewrite updateReport_eq.
  destruct (existsb _ _); [|done]. split; [exact Ht|].
  unfold keys_below in *; simpl in *. apply Forall_fmap.
  eapply Forall_impl; [exact Hr|]. intros r Hlt. simpl.
  by destruct (Report.id r =? id)%Z.
Qed.

Lemma consistent_deleteTicket id db :
  consistent db → consistent (snd (deleteTicket id db)).
Proof.
  intros [Ht Hr]. rewrite deleteTicket_eq. split; [|exact Hr].
  unfold keys_below in *; simpl in *.
  rewrite Forall_forall in Ht. apply Forall_forall.
  intros t [_ Hin]%list_elem_of_filter. by apply Ht.
Qed.

Lemma consistent_deleteReport id db :
  consistent db → consistent (snd (deleteReport id db)).
Proof.
  intros [Ht Hr]. rewrite deleteReport_eq. split; [exact Ht|].
  unfold keys_below in *; simpl in *.
  rewrite Forall_forall in Hr. apply Forall_forall.
  intros r [_ Hin]%list_elem_of_filter. by apply Hr.
Qed.

End InvariantFacts.

(** ** Facts about the cells of the sheet *)

Module ExcelFacts.
Import Excel.

(** A text field shows as it is and a missing one as the empty string;
    a date shows in the locale's form. *)
Lemma text_cell_eq field :
  text_cell field = Js.Str (default EmptyString field).
Proof.
  destruct field as [s|]; [|done]. unfold text_cell, Js.or; simpl.
  by destruct (String.eqb_spec s EmptyString) as [->|].
Qed.

Lemma date_cell_eq locale field :
  date_cell locale field = Js.Str (default EmptyString (locale <$> field)).
Proof. by destruct field. Qed.

(** A number shows as it is unless it is zero. *)
Lemma number_cell_eq field :
  number_cell field =
    match field with
    | Some n => if Z.eqb n 0 then Js.Str EmptyString else Js.Num n
    | None => Js.Str EmptyString
    end.
Proof.
  destruct field as [n|]; [|done]. unfold number_cell, Js.or; simpl.
  by destruct (Z.eqb n 0).
Qed.

End ExcelFacts.
(** ** The claims about ticket numbers *)

(** C1.  Whatever the insert input holds, a ticket number sent by the
    client included, [createTicket] persists and returns a row whose
    number is [TKT-<year>-] followed by one more than the count of the
    stored tickets dated in the current year, padded with zeros on the
    left to three characters (exactly three below one thousand).  In
    particular two tickets dated in 2025 and created one after the
    other in 2025, in a store with no other ticket dated in 2025, get
    [TKT-2025-001] and [TKT-2025-002]. *)
Theorem createTicket_assigns_number :
  (∀ db year ticket,
     Props.consistent db →
     let n := Props.tickets_dated_in year db + 1 in
     let digits := Js.padStart 3 "0" (pretty n) in
     ∃ t db',
       Storage.createTicket year ticket db = (Ok (Some t), db') ∧
       Storage.rows (Storage.tickets db') = Storage.rows (Storage.tickets db) ++ [t] ∧
       Props.stored_ticket db' (Schema.Ticket.id t) = Some t ∧
       Schema.Ticket.ticketNo t = Some ("TKT-" +:+ pretty year +:+ "-" +:+ digits) ∧
       digits = Js.repeat_string (3 - String.length (pretty n)) "0" +:+ pretty n ∧
       ((n < 1000)%nat → String.length digits = 3)) ∧
  (∀ db first second d,
     Props.consistent db →
     Props.tickets_dated_in 2025 db = 0 →
     Schema.InsertTicket.date first = Some (Some d) →
     Sql.year d = 2025 →
     ∃ t1 db1 t2 db2,
       Storage.createTicket 2025 first db = (Ok (Some t1), db1) ∧
       Storage.createTicket 2025 second db1 = (Ok (Some t2), db2) ∧
       Schema.Ticket.ticketNo t1 = Some "TKT-2025-001" ∧
       Schema.Ticket.ticketNo t2 = Some "TKT-2025-002").
Proof.
  split.
  - intros db year ticket [Hk _] n digits.
    exists (Props.numbered year ticket db),
      (Props.with_ticket (Props.numbered year ticket db) db).
    split; [by apply NumberFacts.createTicket_eq|].
    split; [done|].
    split; [by apply NumberFacts.stored_ticket_new|].
    split; [done|]. split; [done|].
    intros Hn. unfold digits. rewrite NumberFacts.length_padStart.
    pose proof (NumberFacts.length_digits_small n Hn). lia.
  - intros db first second d [Hk _] Hnone Hdate Hyear.
    set (t1 := Props.numbered 2025 first db).
    set (db1 := Props.with_ticket t1 db).
    assert (Hk1 : Props.keys_below Storage.tickets_table db1)
      by (by apply NumberFacts.keys_below_with_ticket).
    assert (Hone : Props.tickets_dated_in 2025 db1 = 1).
    { unfold db1. rewrite NumberFacts.tickets_dated_in_with_ticket, Hnone.
      unfold Props.dated_in, t1; simpl. rewrite Hdate; simpl.
      by rewrite Hyear. }
    exists t1, db1, (Props.numbered 2025 second db1),
      (Props.with_ticket (Props.numbered 2025 second db1) db1).
    split; [by apply NumberFacts.createTicket_eq|].
    split; [by apply NumberFacts.createTicket_eq|].
    split.
    + unfold t1, Props.numbered; simpl. by rewrite Hnone.
    + unfold Props.numbered; simpl. by rewrite Hone.
Qed.

Lemma createTicket_assigns_number_witness :
  (∃ t db',
     Storage.createTicket 2025 Samples.plant Props.fresh = (Ok (Some t), db') ∧
     Schema.Ticket.ticketNo t = Some "TKT-2025-001") ∧
  ∃ t1 db1 t2 db2,
    Storage.createTicket 2025 Samples.plant Props.fresh = (Ok (Some t1), db1) ∧
    Storage.createTicket 2025 Samples.mill db1 = (Ok (Some t2), db2) ∧
    Schema.Ticket.ticketNo t1 = Some "TKT-2025-001" ∧
    Schema.Ticket.ticketNo t2 = Some "TKT-2025-002".
Proof.
  split.
  - destruct (proj1 createTicket_assigns_number Props.fresh 2025 Samples.plant)
      as (t & db' & Hrun & _ & _ & Hno & _); [split; constructor|].
    exists t, db'. split; [exact Hrun | exact Hno].
  - apply (proj2 createTicket_assigns_number Props.fresh Samples.plant
             Samples.mill Samples.march14);
      [split; constructor | reflexivity | reflexivity | reflexivity].
Defined.

(** C2, as stated, fails on the code.  Create two tickets in 2025,
    delete the first and create a third: the count of the year is back
    to one, so the third ticket gets [TKT-2025-002], the number of the
    second ticket, which is still in the store. *)
Theorem number_reused_after_delete :
  ∃ t3 db,
    Samples.after_delete = (Ok (Some t3), db) ∧
    Schema.Ticket.ticketNo t3 = Some "TKT-2025-002" ∧
    map (λ t, (Schema.Ticket.id t, Schema.Ticket.ticketNo t))
        (Storage.rows (Storage.tickets db))
      = [(2%Z, Some "TKT-2025-002"); (3%Z, Some "TKT-2025-002")].
Proof. eexists _, _. vm_compute. split; [reflexivity | split; reflexivity]. Qed.

(** ** The claims about update, delete and createReport *)

(** C3, as the code has it.  An update that supplies no [ticketNo]
    leaves the ticket number of every stored ticket as it was, and the
    row it returns carries the number that row had before. *)
Theorem updateTicket_keeps_number db id ticket k :
  Schema.InsertTicket.ticketNo ticket = None →
  Schema.Ticket.ticketNo <$>
      Props.stored_ticket (snd (Storage.updateTicket id ticket db)) k
    = Schema.Ticket.ticketNo <$> Props.stored_ticket db k ∧
  ∀ t, fst (Storage.updateTicket id ticket db) = Ok (Some t) →
       Some (Schema.Ticket.ticketNo t)
       = Schema.Ticket.ticketNo <$> Props.stored_ticket db id.
Proof.
  intros Hno.
  assert (Hset : ∀ j, Schema.Ticket.ticketNo <$>
      Props.stored_ticket (Props.with_ticket_set id ticket db) j
      = Schema.Ticket.ticketNo <$> Props.stored_ticket db j).
  { intros j. rewrite StoreFacts.stored_ticket_set.
    destruct (Props.stored_ticket db j) as [t|]; [|done]. simpl.
    destruct (Z.eqb (Schema.Ticket.id t) id); [|done]. simpl.
    by rewrite Hno. }
  rewrite StoreFacts.updateTicket_eq.
  destruct (existsb _ _); simpl; [|done].
  split; [apply Hset|].
  intros t Ht. rewrite <- Hset. injection Ht as ->. done.
Qed.

Lemma updateTicket_keeps_number_witness :
  Schema.Ticket.ticketNo <$>
      Props.stored_ticket
        (snd (Storage.updateTicket 1 Samples.close Samples.one_ticket)) 1
    = Schema.Ticket.ticketNo <$> Props.stored_ticket Samples.one_ticket 1 ∧
  ∀ t, fst (Storage.updateTicket 1 Samples.close Samples.one_ticket)
         = Ok (Some t) →
       Some (Schema.Ticket.ticketNo t)
       = Schema.Ticket.ticketNo <$> Props.stored_ticket Samples.one_ticket 1.
Proof.
  apply (updateTicket_keeps_number Samples.one_ticket 1 Samples.close 1).
  reflexivity.
Defined.

(** C3, as stated, fails: an update that supplies a [ticketNo] writes
    it over the number assigned at creation. *)
Lemma updateTicket_rewrites_number :
  Schema.Ticket.ticketNo <$> Props.stored_ticket Samples.one_ticket 1
    = Some (Some "TKT-2025-001") ∧
  Schema.Ticket.ticketNo <$>
      Props.stored_ticket
        (snd (Storage.updateTicket 1 Samples.renumber Samples.one_ticket)) 1
    = Some (Some "TKT-1999-999").
Proof. split; vm_compute; reflexivity. Qed.

(** C6, as the code has it.  An update with no field to write is
    rejected with the update error of its table and leaves the store as
    it is; an update with a field to write, on a key that is not
    stored, resolves to "not found" and leaves the store as it is. *)
Theorem update_without_effect :
  (∀ db id,
     Storage.updateTicket id Schema.InsertTicket.empty db
       = (Err "Failed to update ticket", db)) ∧
  (∀ db id,
     Storage.updateReport id Schema.InsertReport.empty db
       = (Err "Failed to update report", db)) ∧
  (∀ db id ticket,
     existsb (λ b, b) (Schema.InsertTicket.entries ticket) = true →
     Props.stored_ticket db id = None →
     Storage.updateTicket id ticket db = (Ok None, db)) ∧
  (∀ db id report,
     existsb (λ b, b) (Schema.InsertReport.entries report) = true →
     Props.stored_report db id = None →
     Storage.updateReport id report db = (Ok None, db)).
Proof.
  split; [|split; [|split]].
  - intros db id. by rewrite StoreFacts.updateTicket_eq.
  - intros db id. by rewrite StoreFacts.updateReport_eq.
  - intros db id ticket Hsome Hnone.
    rewrite StoreFacts.updateTicket_eq, Hsome.
    by rewrite (StoreFacts.with_ticket_set_absent id ticket db Hnone), Hnone.
  - intros db id report Hsome Hnone.
    rewrite StoreFacts.updateReport_eq, Hsome.
    by rewrite (StoreFacts.with_report_set_absent id report db Hnone), Hnone.
Qed.

Lemma update_without_effect_witness :
  Storage.updateTicket 7 Samples.close Samples.one_ticket
    = (Ok None, Samples.one_ticket) ∧
  Storage.updateReport 7 Samples.pay Samples.one_report
    = (Ok None, Samples.one_report).
Proof.
  destruct update_without_effect as (_ & _ & Hticket & Hreport).
  split.
  - apply (Hticket Samples.one_ticket 7%Z Samples.close); reflexivity.
  - apply (Hreport Samples.one_report 7%Z Samples.pay); reflexivity.
Defined.

(** C6, as stated, fails: with an empty partial the update of a stored
    record does not return the record, it is rejected. *)
Lemma update_empty_partial_rejected :
  is_Some (Props.stored_ticket Samples.one_ticket 1) ∧
  fst (Storage.updateTicket 1 Schema.InsertTicket.empty Samples.one_ticket)
    = Err "Failed to update ticket" ∧
  is_Some (Props.stored_report Samples.one_report 1) ∧
  fst (Storage.updateReport 1 Schema.InsertReport.empty Samples.one_report)
    = Err "Failed to update report".
Proof. repeat split; try (vm_compute; reflexivity); vm_compute; eauto. Qed.
(** C7.  [deleteTicket] and [deleteReport] resolve to true exactly when
    a row is removed.  On a key that is not stored they resolve to
    false and leave the store as it is; on a stored key they resolve to
    true and the store gets shorter; and called again on the same key
    straight after, they resolve to false and change nothing. *)
Theorem delete_tells_removal :
  (∀ db id,
     ∃ b db',
       Storage.deleteTicket id db = (Ok b, db') ∧
       (b = true ↔
        length (Storage.rows (Storage.tickets db'))
        < length (Storage.rows (Storage.tickets db))) ∧
       (b = true ↔ is_Some (Props.stored_ticket db id)) ∧
       (b = false → db' = db) ∧
       Storage.deleteTicket id db' = (Ok false, db')) ∧
  (∀ db id,
     ∃ b db',
       Storage.deleteReport id db = (Ok b, db') ∧
       (b = true ↔
        length (Storage.rows (Storage.reports db'))
        < length (Storage.rows (Storage.reports db))) ∧
       (b = true ↔ is_Some (Props.stored_report db id)) ∧
       (b = false → db' = db) ∧
       Storage.deleteReport id db' = (Ok false, db')).
Proof.
  split; intros db id.
  - exists (bool_decide (is_Some (Props.stored_ticket db id))),
      (Props.without_ticket id db).
    split; [apply StoreFacts.deleteTicket_eq|].
    rewrite bool_decide_eq_true, bool_decide_eq_false.
    split; [|split; [done|split]].
    + split; [apply StoreFacts.length_without_ticket|].
      intros Hlt. destruct (Props.stored_ticket db id) eqn:Hs; [eauto|].
      rewrite (StoreFacts.without_ticket_absent id db Hs) in Hlt. lia.
    + intros Hno. apply StoreFacts.without_ticket_absent.
      by destruct (Props.stored_ticket db id); [destruct Hno; eauto|].
    + rewrite StoreFacts.deleteTicket_eq, StoreFacts.stored_ticket_without.
      rewrite bool_decide_eq_false_2 by (by intros [? ?]).
      f_equal. apply StoreFacts.without_ticket_absent,
        StoreFacts.stored_ticket_without.
  - exists (bool_decide (is_Some (Props.stored_report db id))),
      (Props.without_report id db).
    split; [apply StoreFacts.deleteReport_eq|].
    rewrite bool_decide_eq_true, bool_decide_eq_false.
    split; [|split; [done|split]].
    + split; [apply StoreFacts.length_without_report|].
      intros Hlt. destruct (Props.stored_report db id) eqn:Hs; [eauto|].
      rewrite (StoreFacts.without_report_absent id db Hs) in Hlt. lia.
    + intros Hno. apply StoreFacts.without_report_absent.
      by destruct (Props.stored_report db id); [destruct Hno; eauto|].
    + rewrite StoreFacts.deleteReport_eq, StoreFacts.stored_report_without.
      rewrite bool_decide_eq_false_2 by (by intros [? ?]).
      f_equal. apply StoreFacts.without_report_absent,
        StoreFacts.stored_report_without.
Qed.

Lemma delete_tells_removal_witness :
  (∃ b db',
     Storage.deleteTicket 1 Samples.one_ticket = (Ok b, db') ∧
     (b = true ↔
      length (Storage.rows (Storage.tickets db'))
      < length (Storage.rows (Storage.tickets Samples.one_ticket))) ∧
     (b = true ↔ is_Some (Props.stored_ticket Samples.one_ticket 1)) ∧
     (b = false → db' = Samples.one_ticket) ∧
     Storage.deleteTicket 1 db' = (Ok false, db')) ∧
  (∃ b db',
     Storage.deleteReport 7 Samples.one_report = (Ok b, db') ∧
     (b = true ↔
      length (Storage.rows (Storage.reports db'))
      < length (Storage.rows (Storage.reports Samples.one_report))) ∧
     (b = true ↔ is_Some (Props.stored_report Samples.one_report 7)) ∧
     (b = false → db' = Samples.one_report) ∧
     Storage.deleteReport 7 db' = (Ok false, db')).
Proof.
  split.
  - exact (proj1 delete_tells_removal Samples.one_ticket 1%Z).
  - exact (proj2 delete_tells_removal Samples.one_report 7%Z).
Defined.

(** C10.  [createReport] stores [totalKm] as it was supplied, and the
    odometer readings beside it: nothing is recomputed or compared.  A
    report created with kmIn 100, kmOut 175 and totalKm 0 is stored
    with totalKm 0. *)
Theorem createReport_keeps_totalKm :
  (∀ db report,
     Props.consistent db →
     ∃ r db',
       Storage.createReport report db = (Ok (Some r), db') ∧
       Props.stored_report db' (Schema.Report.id r) = Some r ∧
       Schema.Report.totalKm r
         = Schema.stored (Schema.InsertReport.totalKm report) ∧
       Schema.Report.kmIn r = Schema.stored (Schema.InsertReport.kmIn report) ∧
       Schema.Report.kmOut r
         = Schema.stored (Schema.InsertReport.kmOut report)) ∧
  (∀ db report,
     Props.consistent db →
     Schema.InsertReport.kmIn report = Some (Some 100%Z) →
     Schema.InsertReport.kmOut report = Some (Some 175%Z) →
     Schema.InsertReport.totalKm report = Some (Some 0%Z) →
     ∃ r db',
       Storage.createReport report db = (Ok (Some r), db') ∧
       Props.stored_report db' (Schema.Report.id r) = Some r ∧
       Schema.Report.kmIn r = Some 100%Z ∧
       Schema.Report.kmOut r = Some 175%Z ∧
       Schema.Report.totalKm r = Some 0%Z).
Proof.
  assert (Hgen : ∀ db report, Props.consistent db →
    ∃ r db',
       Storage.createReport report db = (Ok (Some r), db') ∧
       Props.stored_report db' (Schema.Report.id r) = Some r ∧
       Schema.Report.totalKm r
         = Schema.stored (Schema.InsertReport.totalKm report) ∧
       Schema.Report.kmIn r = Schema.stored (Schema.InsertReport.kmIn report) ∧
       Schema.Report.kmOut r
         = Schema.stored (Schema.InsertReport.kmOut report)).
  { intros db report [_ Hk].
    eexists _, _. split; [by apply StoreFacts.createReport_eq|].
    split; [by apply StoreFacts.stored_report_new|]. done. }
  split; [exact Hgen|].
  intros db report Hc Hin Hout Htotal.
  destruct (Hgen db report Hc) as (r & db' & Hrun & Hstored & Ht & Hi & Ho).
  exists r, db'. rewrite Hin in Hi. rewrite Hout in Ho. rewrite Htotal in Ht.
  done.
Qed.

Lemma createReport_keeps_totalKm_witness :
  ∃ r db',
    Storage.createReport Samples.asha Props.fresh = (Ok (Some r), db') ∧
    Props.stored_report db' (Schema.Report.id r) = Some r ∧
    Schema.Report.kmIn r = Some 100%Z ∧
    Schema.Report.kmOut r = Some 175%Z ∧
    Schema.Report.totalKm r = Some 0%Z.
Proof.
  apply (proj2 createReport_keeps_totalKm Props.fresh Samples.asha);
    [split; constructor | reflexivity | reflexivity | reflexivity].
Defined.

(** ** The claims about the list queries *)




(** Equality of text follows the collation as well: under a
    case-insensitive one the status "open" selects a ticket whose
    status is "Open". *)
Example status_compared_by_weight :
  ∃ t,
    Storage.getTickets Sql.case_insensitive
      (Some (Storage.TicketFilters.mk None (Some "open") None))
      Samples.one_ticket
      = (Ok [t], Samples.one_ticket) ∧
    Schema.Ticket.ticketStatus t = Some "Open".
Proof. eexists. split; reflexivity. Qed.

(** C5.  A filter value counts only when it is a non-empty string: an
    empty string and an absent value are the same, so two calls whose
    filters differ only in that return the same result.  With no value
    supplied every stored row is returned.  For reports a lower bound
    alone keeps the rows dated on or after it and an upper bound alone
    keeps the rows dated on or before it. *)
Theorem empty_filter_values_ignored :
  Props.supplied (Some EmptyString) = Props.supplied None ∧
  (∀ w db f f',
     Props.ticket_filter_values f = Props.ticket_filter_values f' →
     Storage.getTickets w f db = Storage.getTickets w f' db) ∧
  (∀ w db f f',
     Props.report_filter_values f = Props.report_filter_values f' →
     Storage.getReports w f db = Storage.getReports w f' db) ∧
  (∀ w db f,
     Props.ticket_filter_values f = (None, None, None) →
     ∃ l, Storage.getTickets w f db = (Ok l, db) ∧
          l ≡ₚ Storage.rows (Storage.tickets db)) ∧
  (∀ w db f,
     Props.report_filter_values f = (None, None, None) →
     ∃ l, Storage.getReports w f db = (Ok l, db) ∧
          l ≡ₚ Storage.rows (Storage.reports db)) ∧
  (∀ w db f bound,
     Props.report_filter_values f = (None, Some bound, None) →
     Props.dated (Some bound) →
     ∃ l, Storage.getReports w f db = (Ok l, db) ∧
          l ≡ₚ filter (λ r, Props.on_or_after bound (Schema.Report.date r) = true)
                 (Storage.rows (Storage.reports db))) ∧
  (∀ w db f bound,
     Props.report_filter_values f = (None, None, Some bound) →
     Props.dated (Some bound) →
     ∃ l, Storage.getReports w f db = (Ok l, db) ∧
          l ≡ₚ filter (λ r, Props.on_or_before bound (Schema.Report.date r) = true)
                 (Storage.rows (Storage.reports db))).
Proof.
  split; [done|].
  split; [by intros w db f f' H; rewrite !ListFacts.getTickets_eq, H|].
  split; [by intros w db f f' H; rewrite !ListFacts.getReports_eq, H|].
  split; [|split; [|split]].
  - intros w db f H. eexists. split; [apply ListFacts.getTickets_eq|].
    rewrite H. apply ListFacts.listed_Permutation.
  - intros w db f H. eexists. split; [apply ListFacts.getReports_eq|].
    rewrite H. apply ListFacts.listed_Permutation.
  - intros w db f bound H _. eexists.
    split; [apply ListFacts.getReports_eq|]. rewrite H.
    apply ListFacts.listed_selected. intros r. simpl.
    by rewrite ListFacts.is_true_gte, andb_true_r.
  - intros w db f bound H _. eexists.
    split; [apply ListFacts.getReports_eq|]. rewrite H.
    apply ListFacts.listed_selected. intros r. simpl.
    by rewrite ListFacts.is_true_lte, andb_true_r.
Qed.

Lemma empty_filter_values_ignored_witness :
  Storage.getTickets Sql.case_insensitive
    (Some (Storage.TicketFilters.mk (Some EmptyString) None (Some EmptyString)))
    Samples.one_ticket
  = Storage.getTickets Sql.case_insensitive None Samples.one_ticket ∧
  Storage.getReports Sql.case_insensitive
    (Some (Storage.ReportFilters.mk (Some EmptyString) (Some EmptyString) None))
    Samples.one_report
  = Storage.getReports Sql.case_insensitive None Samples.one_report ∧
  (∃ l, Storage.getTickets Sql.case_insensitive
          (Some (Storage.TicketFilters.mk (Some EmptyString) None None))
          Samples.one_ticket = (Ok l, Samples.one_ticket) ∧
        l ≡ₚ Storage.rows (Storage.tickets Samples.one_ticket)) ∧
  (∃ l, Storage.getReports Sql.case_insensitive None Samples.one_report
          = (Ok l, Samples.one_report) ∧
        l ≡ₚ Storage.rows (Storage.reports Samples.one_report)) ∧
  (∃ l, Storage.getReports Sql.case_insensitive
          (Some (Storage.ReportFilters.mk None (Some "2025-03-14") None))
          Samples.one_report = (Ok l, Samples.one_report) ∧
        l ≡ₚ filter (λ r, Props.on_or_after "2025-03-14"
                            (Schema.Report.date r) = true)
               (Storage.rows (Storage.reports Samples.one_report))) ∧
  (∃ l, Storage.getReports Sql.case_insensitive
          (Some (Storage.ReportFilters.mk None (Some EmptyString)
                   (Some "2025-03-14")))
          Samples.one_report = (Ok l, Samples.one_report) ∧
        l ≡ₚ filter (λ r, Props.on_or_before "2025-03-14"
                            (Schema.Report.date r) = true)
               (Storage.rows (Storage.reports Samples.one_report))).
Proof.
  destruct empty_filter_values_ignored
    as (_ & Htickets & Hreports & Hall & Hallr & Hfrom & Hto).
  split; [by apply Htickets|].
  split; [by apply Hreports|].
  split; [by apply Hall|].
  split; [by apply Hallr|].
  split.
  - apply Hfrom; [reflexivity | by eexists].
  - apply Hto; [reflexivity | by eexists].
Defined.

(** ** The claims about the export *)

(** C8.  For tickets and for reports, [exportToExcel] is rejected with
    "No data to export" when the list is absent or empty, so no
    workbook is written; a workbook that is written has its header row
    and one row for each record, at least one. *)
Theorem export_refuses_no_data :
  (∀ locale timestamp filename,
     Excel.exportToExcel locale timestamp (Excel.tickets None) filename
       = Err "No data to export" ∧
     Excel.exportToExcel locale timestamp (Excel.tickets (Some [])) filename
       = Err "No data to export" ∧
     Excel.exportToExcel locale timestamp (Excel.reports None) filename
       = Err "No data to export" ∧
     Excel.exportToExcel locale timestamp (Excel.reports (Some [])) filename
       = Err "No data to export") ∧
  (∀ locale timestamp input filename wb,
     Excel.exportToExcel locale timestamp input filename = Ok wb →
     2 ≤ length (Excel.worksheetData wb) ∧
     length (Excel.worksheetData wb)
       = S (match input with
            | Excel.tickets data => length (default [] data)
            | Excel.reports data => length (default [] data)
            end)).
Proof.
  split; [done|].
  intros locale timestamp input filename wb.
  destruct input as [[[|t l]|]|[[|r l]|]]; try done;
    intros [= <-]; simpl; rewrite length_map; split; lia.
Qed.

Lemma export_refuses_no_data_witness :
  ∃ wb,
    Excel.exportToExcel Samples.day_first "2025-03-14"
      (Excel.reports (Some [Samples.idle])) "ACV_Reports" = Ok wb ∧
    2 ≤ length (Excel.worksheetData wb).
Proof.
  eexists. split; [reflexivity|].
  apply (proj2 export_refuses_no_data Samples.day_first "2025-03-14"
           (Excel.reports (Some [Samples.idle])) "ACV_Reports").
  reflexivity.
Defined.

(** C9, as stated, fails on the code.  A numeric field that is present
    with the value 0 is rendered as the empty string, not as "0":
    [field || ''] takes 0 for a missing value.  The sheet of a report
    with kmIn, kmOut and totalKm 0 has three empty cells there. *)
Theorem zero_rendered_empty :
  Excel.number_cell (Some 0%Z) = Js.Str EmptyString ∧
  ∀ locale,
    let row := Excel.report_row locale Samples.idle in
    row !! 2 = Some (Js.Str EmptyString) ∧
    row !! 3 = Some (Js.Str EmptyString) ∧
    row !! 12 = Some (Js.Str EmptyString).
Proof. split; [reflexivity|]. intros locale. repeat split. Qed.

(** ** Further facts about the stored rows *)

Module KeyFacts.
Import Schema Storage Props Calls QueryFacts NumberFacts StoreFacts
  InvariantFacts.

Lemma filter_key_absent {Row : Type} (column : Row → Z) (l : list Row) k :
  k ∉ map column l → filter (λ x, column x = k) l = [].
Proof.
  induction l as [|y l IH]; [done|].
  cbn [map]. intros [Hne Hk]%not_elem_of_cons.
  rewrite filter_cons_False by (intros Heq; by apply Hne). by apply IH.
Qed.

Lemma filter_key_unique {Row : Type} (column : Row → Z) (l : list Row) r :
  NoDup (map column l) → r ∈ l → filter (λ x, column x = column r) l = [r].
Proof.
  induction l as [|x l IH]; [by intros _ ?%elem_of_nil|].
  cbn [map]. intros [Hx Hl]%NoDup_cons [->|Hin]%elem_of_cons.
  - rewrite filter_cons_True by done. f_equal. by apply filter_key_absent.
  - rewrite filter_cons_False; [by apply IH|].
    intros Heq. apply Hx. rewrite Heq. by apply list_elem_of_fmap_2.
Qed.

Lemma map_key_set {Row : Type} (column : Row → Z) (f : Row → Row) (l : list Row) :
  (∀ r, column (f r) = column r) → map column (map f l) = map column l.
Proof.
  intros Hf. induction l as [|r l IH]; [done|]. cbn [map]. by rewrite Hf, IH.
Qed.

Lemma NoDup_map_filter {Row : Type} (column : Row → Z) (P : Row → Prop)
    `{!∀ r, Decision (P r)} (l : list Row) :
  NoDup (map column l) → NoDup (map column (filter P l)).
Proof.
  induction l as [|r l IH]; [done|].
  cbn [map]. intros [Hr Hl]%NoDup_cons. rewrite filter_cons.
  case_decide; [|by apply IH]. cbn [map]. apply NoDup_cons. split; [|by apply IH].
  intros (x & Hx & [_ Hin]%list_elem_of_filter)%list_elem_of_fmap.
  apply Hr. rewrite Hx. by apply list_elem_of_fmap_2.
Qed.

Lemma NoDup_map_fresh {Row : Type} (column : Row → Z) (l : list Row) r :
  Forall (λ x, (column x < column r)%Z) l →
  NoDup (map column l) → NoDup (map column (l ++ [r])).
Proof.
  intros Hlt Hl. rewrite map_app. apply NoDup_app. split; [done|].
  split; [|apply NoDup_singleton].
  intros k (x & -> & Hx)%list_elem_of_fmap [Heq|[]%elem_of_nil]%elem_of_cons.
  rewrite Forall_forall in Hlt. specialize (Hlt x Hx). lia.
Qed.

Lemma consistent_step db c : consistent db → consistent (step db c).
Proof.
  intros H. destruct c; cbn [step].
  - by rewrite ListFacts.getTickets_eq.
  - by rewrite getTicketById_eq.
  - by apply consistent_createTicket.
  - by apply consistent_updateTicket.
  - by apply consistent_deleteTicket.
  - by rewrite ListFacts.getReports_eq.
  - by rewrite getReportById_eq.
  - by apply consistent_createReport.
  - by apply consistent_updateReport.
  - by apply consistent_deleteReport.
Qed.

Lemma well_keyed_step db c : well_keyed db → well_keyed (step db c).
Proof.
  intros (Hc & Ht & Hr). split; [by apply consistent_step|].
  destruct Hc as [Hkt Hkr]. unfold distinct_keys in *. destruct c; cbn [step].
  - by rewrite ListFacts.getTickets_eq.
  - by rewrite getTicketById_eq.
  - rewrite createTicket_eq by done. simpl. split; [|done].
    apply NoDup_map_fresh; [|done]. exact Hkt.
  - rewrite updateTicket_eq. destruct (existsb _ _); [|done]. simpl.
    split; [|done]. rewrite map_key_set; [done|].
    intros t. simpl. by case_match.
  - rewrite deleteTicket_eq. simpl. split; [|done]. by apply NoDup_map_filter.
  - by rewrite ListFacts.getReports_eq.
  - by rewrite getReportById_eq.
  - rewrite createReport_eq by done. simpl. split; [done|].
    apply NoDup_map_fresh; [|done]. exact Hkr.
  - rewrite updateReport_eq. destruct (existsb _ _); [|done]. simpl.
    split; [done|]. rewrite map_key_set; [done|].
    intros r. simpl. by case_match.
  - rewrite deleteReport_eq. simpl. split; [done|]. by apply NoDup_map_filter.
Qed.

Lemma counters_step db c :
  consistent db →
  (auto_increment (tickets db) ≤ auto_increment (tickets (step db c)))%Z ∧
  (auto_increment (reports db) ≤ auto_increment (reports (step db c)))%Z.
Proof.
  intros [Hkt Hkr]. destruct c; cbn [step].
  - by rewrite ListFacts.getTickets_eq.
  - by rewrite getTicketById_eq.
  - rewrite createTicket_eq by done. simpl. lia.
  - rewrite updateTicket_eq. by destruct (existsb _ _).
  - by rewrite deleteTicket_eq.
  - by rewrite ListFacts.getReports_eq.
  - by rewrite getReportById_eq.
  - rewrite createReport_eq by done. simpl. lia.
  - rewrite updateReport_eq. by destruct (existsb _ _).
  - by rewrite deleteReport_eq.
Qed.

Lemma counters_run calls db :
  consistent db →
  consistent (run calls db) ∧
  (auto_increment (tickets db) ≤ auto_increment (tickets (run calls db)))%Z ∧
  (auto_increment (reports db) ≤ auto_increment (reports (run calls db)))%Z.
Proof.
  revert db. induction calls as [|c calls IH]; intros db Hc; [done|].
  cbn [run foldl]. fold (run calls (step db c)).
  destruct (IH (step db c) (consistent_step db c Hc)) as (Hc' & Ht & Hr).
  destruct (counters_step db c Hc). split; [done|]. lia.
Qed.

End KeyFacts.

Module RowFacts.
Import Schema Storage Props Calls QueryFacts NumberFacts StoreFacts KeyFacts.

Lemma head_filter_elem {A : Type} (P : A → Prop) `{!∀ x, Decision (P x)} l x :
  head (filter P l) = Some x → P x ∧ x ∈ l.
Proof.
  intros Hhead. apply (list_elem_of_filter P l x).
  destruct (filter P l) as [|y l'] eqn:E; [done|].
  injection Hhead as ->. apply elem_of_cons. by left.
Qed.

Lemma stored_ticket_elem db k t :
  stored_ticket db k = Some t → Ticket.id t = k ∧ t ∈ rows (tickets db).
Proof. intros H. by apply (head_filter_elem (λ x, Ticket.id x = k)) in H. Qed.

Lemma stored_report_elem db k r :
  stored_report db k = Some r → Report.id r = k ∧ r ∈ rows (reports db).
Proof. intros H. by apply (head_filter_elem (λ x, Report.id x = k)) in H. Qed.

Lemma stored_ticket_None db k :
  stored_ticket db k = None ↔ k ∉ map Ticket.id (rows (tickets db)).
Proof.
  unfold stored_ticket. split.
  - intros H%head_filter_None (t & -> & Hin)%list_elem_of_fmap.
    by apply (filter_nil_not_elem_of _ _ t H).
  - intros H. by rewrite filter_key_absent.
Qed.

Lemma stored_report_None db k :
  stored_report db k = None ↔ k ∉ map Report.id (rows (reports db)).
Proof.
  unfold stored_report. split.
  - intros H%head_filter_None (t & -> & Hin)%list_elem_of_fmap.
    by apply (filter_nil_not_elem_of _ _ t H).
  - intros H. by rewrite filter_key_absent.
Qed.

(** [set] is the same twice as once, and keeps the key. *)
Lemma assign_twice {T : Type} (f : Js.optional T) old :
  assign f (assign f old) = assign f old.
Proof. by destruct f. Qed.

Lemma ticket_set_twice v t : ticket_set v (ticket_set v t) = ticket_set v t.
Proof. unfold ticket_set; simpl. by rewrite !assign_twice. Qed.

Lemma report_set_twice v r : report_set v (report_set v r) = report_set v r.
Proof. unfold report_set; simpl. by rewrite !assign_twice. Qed.

Lemma with_ticket_set_twice id v db :
  with_ticket_set id v (with_ticket_set id v db) = with_ticket_set id v db.
Proof.
  unfold with_ticket_set; simpl. do 2 f_equal.
  rewrite map_map. apply map_ext. intros t. unfold Sql.eq_id; simpl.
  destruct (Ticket.id t =? id)%Z eqn:E; simpl; rewrite E; [|done].
  apply ticket_set_twice.
Qed.

Lemma with_report_set_twice id v db :
  with_report_set id v (with_report_set id v db) = with_report_set id v db.
Proof.
  unfold with_report_set; simpl. do 2 f_equal.
  rewrite map_map. apply map_ext. intros r. unfold Sql.eq_id; simpl.
  destruct (Report.id r =? id)%Z eqn:E; simpl; rewrite E; [|done].
  apply report_set_twice.
Qed.

Lemma filter_differs_fresh {Row : Type} (column : Row → Z) (l : list Row) r :
  Forall (λ x, (column x < column r)%Z) l →
  filter (λ x, column x ≠ column r) (l ++ [r]) = l.
Proof.
  intros Hlt. rewrite filter_app, filter_cons_False, filter_nil, app_nil_r
    by (intros H; by apply H).
  induction Hlt as [|x l Hx _ IH]; [done|].
  rewrite filter_cons_True by lia. by rewrite IH.
Qed.

End RowFacts.

(** ** Further properties of the storage methods *)

(** X1.  Whatever calls are made, one after the other, on a store
    whose keys are distinct and below the counters, the keys of the
    store stay distinct and below the counters. *)
Theorem keys_stay_distinct calls db :
  Calls.well_keyed db → Calls.well_keyed (Calls.run calls db).
Proof.
  revert db. induction calls as [|c calls IH]; intros db H; [done|].
  apply (IH (Calls.step db c)). by apply KeyFacts.well_keyed_step.
Qed.

Lemma keys_stay_distinct_witness :
  Calls.well_keyed
    (Calls.run [Calls.createTicket 2025 Samples.plant;
                Calls.createReport Samples.asha;
                Calls.updateTicket 1 Samples.close;
                Calls.deleteTicket 1;
                Calls.createTicket 2025 Samples.mill] Props.fresh).
Proof.
  apply keys_stay_distinct.
  split; [split; constructor | split; constructor].
Defined.

(** X2.  A key is never handed out twice: a ticket or report created
    after any calls gets a key larger than that of every row that was
    in the store before them, deleted since or not. *)
Theorem created_key_is_new :
  (∀ calls db t year ticket,
     Props.consistent db →
     t ∈ Storage.rows (Storage.tickets db) →
     ∃ t' db',
       Storage.createTicket year ticket (Calls.run calls db)
         = (Ok (Some t'), db') ∧
       (Schema.Ticket.id t < Schema.Ticket.id t')%Z) ∧
  (∀ calls db r report,
     Props.consistent db →
     r ∈ Storage.rows (Storage.reports db) →
     ∃ r' db',
       Storage.createReport report (Calls.run calls db)
         = (Ok (Some r'), db') ∧
       (Schema.Report.id r < Schema.Report.id r')%Z).
Proof.
  split.
  - intros calls db t year ticket Hc Hin.
    destruct (KeyFacts.counters_run calls db Hc) as ([Hk _] & Hle & _).
    eexists _, _. split; [by apply NumberFacts.createTicket_eq|]. simpl.
    destruct Hc as [Hkt _]. unfold Props.keys_below in Hkt.
    rewrite Forall_forall in Hkt. specialize (Hkt t Hin). simpl in Hkt. lia.
  - intros calls db r report Hc Hin.
    destruct (KeyFacts.counters_run calls db Hc) as ([_ Hk] & _ & Hle).
    eexists _, _. split; [by apply StoreFacts.createReport_eq|]. simpl.
    destruct Hc as [_ Hkr]. unfold Props.keys_below in Hkr.
    rewrite Forall_forall in Hkr. specialize (Hkr r Hin). simpl in Hkr. lia.
Qed.

Lemma created_key_is_new_witness :
  (∃ t' db',
     Storage.createTicket 2025 Samples.mill
       (Calls.run [Calls.deleteTicket 1] Samples2.both) = (Ok (Some t'), db') ∧
     (Schema.Ticket.id Samples2.plant_row < Schema.Ticket.id t')%Z) ∧
  (∃ r' db',
     Storage.createReport Samples.asha
       (Calls.run [Calls.deleteReport 1] Samples2.both) = (Ok (Some r'), db') ∧
     (Schema.Report.id Samples2.asha_row < Schema.Report.id r')%Z).
Proof.
  split.
  - apply (proj1 created_key_is_new [Calls.deleteTicket 1] Samples2.both).
    + split; repeat constructor.
    + apply elem_of_cons. by left.
  - apply (proj2 created_key_is_new [Calls.deleteReport 1] Samples2.both).
    + split; repeat constructor.
    + apply elem_of_cons. by left.
Defined.

(** X3.  In a store with distinct keys, [getTicketById] and
    [getReportById] return a row exactly when that row is stored under
    the key asked for, and "not found" exactly when no stored row has
    that key; neither changes the store. *)
Theorem lookup_finds_stored_rows :
  (∀ db,
     Calls.well_keyed db →
     (∀ t, t ∈ Storage.rows (Storage.tickets db) ↔
           Storage.getTicketById (Schema.Ticket.id t) db = (Ok (Some t), db)) ∧
     (∀ id, id ∉ map Schema.Ticket.id (Storage.rows (Storage.tickets db)) ↔
            Storage.getTicketById id db = (Ok None, db))) ∧
  (∀ db,
     Calls.well_keyed db →
     (∀ r, r ∈ Storage.rows (Storage.reports db) ↔
           Storage.getReportById (Schema.Report.id r) db = (Ok (Some r), db)) ∧
     (∀ id, id ∉ map Schema.Report.id (Storage.rows (Storage.reports db)) ↔
            Storage.getReportById id db = (Ok None, db))).
Proof.
  split; intros db (_ & Ht & Hr);
    unfold Calls.distinct_keys in Ht, Hr; simpl in Ht, Hr.
  - split.
    + intros t. rewrite QueryFacts.getTicketById_eq. split.
      * intros Hin. f_equal. f_equal. unfold Props.stored_ticket.
        by rewrite (KeyFacts.filter_key_unique Schema.Ticket.id _ _ Ht Hin).
      * intros [= H]. by apply RowFacts.stored_ticket_elem in H as [_ ?].
    + intros id. rewrite QueryFacts.getTicketById_eq.
      rewrite <- RowFacts.stored_ticket_None. split; [by intros ->|].
      by intros [= ->].
  - split.
    + intros r. rewrite QueryFacts.getReportById_eq. split.
      * intros Hin. f_equal. f_equal. unfold Props.stored_report.
        by rewrite (KeyFacts.filter_key_unique Schema.Report.id _ _ Hr Hin).
      * intros [= H]. by apply RowFacts.stored_report_elem in H as [_ ?].
    + intros id. rewrite QueryFacts.getReportById_eq.
      rewrite <- RowFacts.stored_report_None. split; [by intros ->|].
      by intros [= ->].
Qed.

Lemma lookup_finds_stored_rows_witness :
  (Samples2.plant_row ∈ Storage.rows (Storage.tickets Samples2.both) ↔
   Storage.getTicketById (Schema.Ticket.id Samples2.plant_row) Samples2.both
     = (Ok (Some Samples2.plant_row), Samples2.both)) ∧
  (Samples2.asha_row ∈ Storage.rows (Storage.reports Samples2.both) ↔
   Storage.getReportById (Schema.Report.id Samples2.asha_row) Samples2.both
     = (Ok (Some Samples2.asha_row), Samples2.both)).
Proof.
  assert (H : Calls.well_keyed Samples2.both).
  { split; [split; repeat constructor|].
    split; (apply NoDup_cons; split; [apply not_elem_of_nil | constructor]). }
  split.
  - apply (proj1 (proj1 lookup_finds_stored_rows Samples2.both H)).
  - apply (proj1 (proj2 lookup_finds_stored_rows Samples2.both H)).
Defined.

Module FrameFacts.
Import Schema Storage Props Calls QueryFacts NumberFacts StoreFacts KeyFacts
  RowFacts.

Lemma filter_key_other {Row : Type} (column : Row → Z) (l : list Row) k id :
  k ≠ id →
  filter (λ x, column x = k) (filter (λ x, column x ≠ id) l)
  = filter (λ x, column x = k) l.
Proof.
  intros Hne. rewrite list_filter_filter. apply list_filter_iff.
  intros x. split; [by intros [? _]|]. intros Hx. split; [done|]. congruence.
Qed.







End FrameFacts.



(** X5.  An update made a second time with the same key and the same
    fields gives the same answer as the first and leaves the store as
    the first left it. *)
Theorem update_twice_is_once :
  (∀ db id ticket,
     Storage.updateTicket id ticket (snd (Storage.updateTicket id ticket db))
     = Storage.updateTicket id ticket db) ∧
  (∀ db id report,
     Storage.updateReport id report (snd (Storage.updateReport id report db))
     = Storage.updateReport id report db).
Proof.
  split.
  - intros db id ticket. rewrite !StoreFacts.updateTicket_eq.
    destruct (existsb _ _) eqn:E; simpl; rewrite ?E; [|done].
    by rewrite RowFacts.with_ticket_set_twice.
  - intros db id report. rewrite !StoreFacts.updateReport_eq.
    destruct (existsb _ _) eqn:E; simpl; rewrite ?E; [|done].
    by rewrite RowFacts.with_report_set_twice.
Qed.



(** X7.  Creating a row and then deleting it by the key returned gives
    back the rows there were, but not the key: the delete answers
    true, the rows of the table are those before the create, and the
    counter stays one higher. *)
Theorem create_then_delete :
  (∀ db year ticket,
     Props.consistent db →
     ∃ t db1 db2,
       Storage.createTicket year ticket db = (Ok (Some t), db1) ∧
       Storage.deleteTicket (Schema.Ticket.id t) db1 = (Ok true, db2) ∧
       Storage.rows (Storage.tickets db2) = Storage.rows (Storage.tickets db) ∧
       Storage.auto_increment (Storage.tickets db2)
         = (Storage.auto_increment (Storage.tickets db) + 1)%Z ∧
       Storage.reports db2 = Storage.reports db) ∧
  (∀ db report,
     Props.consistent db →
     ∃ r db1 db2,
       Storage.createReport report db = (Ok (Some r), db1) ∧
       Storage.deleteReport (Schema.Report.id r) db1 = (Ok true, db2) ∧
       Storage.rows (Storage.reports db2) = Storage.rows (Storage.reports db) ∧
       Storage.auto_increment (Storage.reports db2)
         = (Storage.auto_increment (Storage.reports db) + 1)%Z ∧
       Storage.tickets db2 = Storage.tickets db).
Proof.
  split.
  - intros db year ticket [Hk _].
    eexists _, _, _. split; [by apply NumberFacts.createTicket_eq|].
    rewrite StoreFacts.deleteTicket_eq.
    rewrite bool_decide_eq_true_2
      by (simpl; rewrite NumberFacts.stored_ticket_new by done; eauto).
    split; [reflexivity|]. split; [|done].
    exact (RowFacts.filter_differs_fresh Schema.Ticket.id _
             (Props.numbered year ticket db) Hk).
  - intros db report [_ Hk].
    eexists _, _, _. split; [by apply StoreFacts.createReport_eq|].
    rewrite StoreFacts.deleteReport_eq.
    rewrite bool_decide_eq_true_2
      by (simpl; rewrite StoreFacts.stored_report_new by done; eauto).
    split; [reflexivity|]. split; [|done].
    exact (RowFacts.filter_differs_fresh Schema.Report.id _
             (Schema.report_values
                (Storage.auto_increment (Storage.reports db)) report) Hk).
Qed.

Lemma create_then_delete_witness :
  ∃ t db1 db2,
    Storage.createTicket 2025 Samples.mill Samples2.both = (Ok (Some t), db1) ∧
    Storage.deleteTicket (Schema.Ticket.id t) db1 = (Ok true, db2) ∧
    Storage.rows (Storage.tickets db2)
      = Storage.rows (Storage.tickets Samples2.both) ∧
    Storage.auto_increment (Storage.tickets db2) = 3%Z.
Proof.
  destruct (proj1 create_then_delete Samples2.both 2025 Samples.mill)
    as (t & db1 & db2 & H1 & H2 & H3 & H4 & _); [split; repeat constructor|].
  exists t, db1, db2. by repeat split.
Defined.

(** X8.  A delete touches the rows under its key only: the rows under
    every other key are found as before, the counter and the other
    table are unchanged, and in a store with distinct keys the table
    loses one row when the answer is true and none when it is false. *)
Theorem delete_removes_one_key :
  (∀ db id,
     ∃ b db',
       Storage.deleteTicket id db = (Ok b, db') ∧
       (∀ k, k ≠ id → Props.stored_ticket db' k = Props.stored_ticket db k) ∧
       Storage.auto_increment (Storage.tickets db')
         = Storage.auto_increment (Storage.tickets db) ∧
       Storage.reports db' = Storage.reports db ∧
       (Calls.well_keyed db →
        length (Storage.rows (Storage.tickets db')) + (if b then 1 else 0)
        = length (Storage.rows (Storage.tickets db)))) ∧
  (∀ db id,
     ∃ b db',
       Storage.deleteReport id db = (Ok b, db') ∧
       (∀ k, k ≠ id → Props.stored_report db' k = Props.stored_report db k) ∧
       Storage.auto_increment (Storage.reports db')
         = Storage.auto_increment (Storage.reports db) ∧
       Storage.tickets db' = Storage.tickets db ∧
       (Calls.well_keyed db →
        length (Storage.rows (Storage.reports db')) + (if b then 1 else 0)
        = length (Storage.rows (Storage.reports db)))).
Proof.
  split.
  - intros db id. eexists _, _. split; [apply StoreFacts.deleteTicket_eq|].
    split; [|split; [done|split; [done|]]].
    + intros k Hk. unfold Props.stored_ticket; simpl.
      by rewrite FrameFacts.filter_key_other.
    + intros (_ & Ht & _). unfold Calls.distinct_keys in Ht; simpl in Ht.
      pose proof (WriteFacts.length_differs Schema.Ticket.id id
                    (Storage.rows (Storage.tickets db))) as Hlen.
      simpl. destruct (Props.stored_ticket db id) as [t|] eqn:E.
      * apply RowFacts.stored_ticket_elem in E as [<- Hin].
        rewrite (KeyFacts.filter_key_unique Schema.Ticket.id _ _ Ht Hin) in Hlen.
        rewrite bool_decide_eq_true_2 by eauto. exact Hlen.
      * unfold Props.stored_ticket in E.
        apply StoreFacts.head_filter_None in E. rewrite E in Hlen.
        rewrite bool_decide_eq_false_2 by (by intros [? ?]). exact Hlen.
  - intros db id. eexists _, _. split; [apply StoreFacts.deleteReport_eq|].
    split; [|split; [done|split; [done|]]].
    + intros k Hk. unfold Props.stored_report; simpl.
      by rewrite FrameFacts.filter_key_other.
    + intros (_ & _ & Hr). unfold Calls.distinct_keys in Hr; simpl in Hr.
      pose proof (WriteFacts.length_differs Schema.Report.id id
                    (Storage.rows (Storage.reports db))) as Hlen.
      simpl. destruct (Props.stored_report db id) as [r|] eqn:E.
      * apply RowFacts.stored_report_elem in E as [<- Hin].
        rewrite (KeyFacts.filter_key_unique Schema.Report.id _ _ Hr Hin) in Hlen.
        rewrite bool_decide_eq_true_2 by eauto. exact Hlen.
      * unfold Props.stored_report in E.
        apply StoreFacts.head_filter_None in E. rewrite E in Hlen.
        rewrite bool_decide_eq_false_2 by (by intros [? ?]). exact Hlen.
Qed.

Lemma delete_removes_one_key_witness :
  ∃ b db',
    Storage.deleteTicket 1 Samples2.both = (Ok b, db') ∧
    length (Storage.rows (Storage.tickets db')) + (if b then 1 else 0)
    = length (Storage.rows (Storage.tickets Samples2.both)).
Proof.
  destruct (proj1 delete_removes_one_key Samples2.both 1%Z)
    as (b & db' & Hrun & _ & _ & _ & Hlen).
  exists b, db'. split; [exact Hrun|]. apply Hlen.
  split; [split; repeat constructor|].
  split; (apply NoDup_cons; split; [apply not_elem_of_nil | constructor]).
Defined.

Module SubsetFacts.
Import Schema Storage Props Calls ListFacts.

Lemma filter_submseteq_impl {A : Type} (P Q : A → Prop)
    `{!∀ x, Decision (P x)} `{!∀ x, Decision (Q x)} (l : list A) :
  (∀ x, P x → Q x) → filter P l ⊆+ filter Q l.
Proof.
  intros HPQ. induction l as [|x l IH]; [done|].
  rewrite !filter_cons. destruct (decide (P x)) as [HP|HP].
  - rewrite decide_True by auto. by constructor.
  - destruct (decide (Q x)); [by constructor | done].
Qed.



(** More conditions, fewer rows. *)
Lemma listed_more {Row : Type} (column : Row → Js.nullable Sql.Date)
    cs cs' (l : list Row) :
  (∀ r, forallb (λ c, Sql.is_true (c r)) cs' = true →
        forallb (λ c, Sql.is_true (c r)) cs = true) →
  listed column cs' l ⊆+ listed column cs l.
Proof.
  intros Himpl.
  rewrite (listed_selected column cs' (λ r, forallb (λ c, Sql.is_true (c r)) cs'))
    by done.
  rewrite (listed_selected column cs (λ r, forallb (λ c, Sql.is_true (c r)) cs))
    by done.
  by apply filter_submseteq_impl.
Qed.

(** A value that extends another brings the other's condition along. *)
Lemma extends_conditions {Row : Type}
    (build : string → list (Sql.condition (Row := Row))) f f' r :
  extends f f' →
  forallb (λ c, Sql.is_true (c r))
    match supplied f' with Some s => build s | None => [] end = true →
  forallb (λ c, Sql.is_true (c r))
    match supplied f with Some s => build s | None => [] end = true.
Proof. unfold extends. intros [H|H]; rewrite H; done. Qed.

End SubsetFacts.

(** ** Further properties of the list queries *)


(** X10.  Filters only narrow: when the filters of one call keep every
    value that the filters of another supply (and may supply more), the
    rows the first returns are among the rows the second returns. *)
Theorem more_filters_fewer_rows :
  (∀ w db f f' l l',
     Calls.extends (f ≫= Storage.TicketFilters.search)
       (f' ≫= Storage.TicketFilters.search) →
     Calls.extends (f ≫= Storage.TicketFilters.status)
       (f' ≫= Storage.TicketFilters.status) →
     Calls.extends (f ≫= Storage.TicketFilters.projectType)
       (f' ≫= Storage.TicketFilters.projectType) →
     Storage.getTickets w f db = (Ok l, db) →
     Storage.getTickets w f' db = (Ok l', db) →
     l' ⊆+ l) ∧
  (∀ w db f f' l l',
     Calls.extends (f ≫= Storage.ReportFilters.search)
       (f' ≫= Storage.ReportFilters.search) →
     Calls.extends (f ≫= Storage.ReportFilters.fromDate)
       (f' ≫= Storage.ReportFilters.fromDate) →
     Calls.extends (f ≫= Storage.ReportFilters.toDate)
       (f' ≫= Storage.ReportFilters.toDate) →
     Storage.getReports w f db = (Ok l, db) →
     Storage.getReports w f' db = (Ok l', db) →
     l' ⊆+ l).
Proof.
  split.
  - intros w db f f' l l' H1 H2 H3.
    rewrite !ListFacts.getTickets_eq. intros [= <-] [= <-].
    apply SubsetFacts.listed_more. intros t.
    unfold Props.ticket_conditions, Props.ticket_filter_values.
    rewrite !forallb_app, !andb_true_iff. intros (Ha & Hb & Hc).
    split; [|split].
    + exact (SubsetFacts.extends_conditions _ _ _ t H1 Ha).
    + exact (SubsetFacts.extends_conditions _ _ _ t H2 Hb).
    + exact (SubsetFacts.extends_conditions _ _ _ t H3 Hc).
  - intros w db f f' l l' H1 H2 H3.
    rewrite !ListFacts.getReports_eq. intros [= <-] [= <-].
    apply SubsetFacts.listed_more. intros r.
    unfold Props.report_conditions, Props.report_filter_values.
    rewrite !forallb_app, !andb_true_iff. intros (Ha & Hb & Hc).
    split; [|split].
    + exact (SubsetFacts.extends_conditions _ _ _ r H1 Ha).
    + exact (SubsetFacts.extends_conditions _ _ _ r H2 Hb).
    + exact (SubsetFacts.extends_conditions _ _ _ r H3 Hc).
Qed.

Lemma more_filters_fewer_rows_witness :
  ∃ l l',
    Storage.getTickets Sql.case_insensitive
      (Some (Storage.TicketFilters.mk (Some "a_c") None None))
      Samples2.both = (Ok l, Samples2.both) ∧
    Storage.getTickets Sql.case_insensitive
      (Some (Storage.TicketFilters.mk (Some "a_c") (Some "Open") None))
      Samples2.both = (Ok l', Samples2.both) ∧
    l' ⊆+ l.
Proof.
  eexists _, _. split; [reflexivity|]. split; [reflexivity|].
  apply (proj1 more_filters_fewer_rows Sql.case_insensitive Samples2.both
           (Some (Storage.TicketFilters.mk (Some "a_c") None None))
           (Some (Storage.TicketFilters.mk (Some "a_c") (Some "Open") None)));
    [by right | by left | by left | reflexivity | reflexivity].
Defined.

Module SheetFacts.
Import Schema Excel Sheet ExcelFacts.

Lemma text_cell_shown field : shown (text_cell field).
Proof. by rewrite text_cell_eq. Qed.

Lemma date_cell_shown locale field : shown (date_cell locale field).
Proof. by rewrite date_cell_eq. Qed.

Lemma number_cell_shown field : shown (number_cell field).
Proof.
  rewrite number_cell_eq. destruct field as [n|]; [|done].
  by destruct (Z.eqb_spec n 0).
Qed.

Lemma ticket_row_shown locale t : Forall shown (ticket_row locale t).
Proof.
  unfold ticket_row.
  repeat (apply Forall_cons; split;
          [first [apply text_cell_shown | apply date_cell_shown]|]).
  constructor.
Qed.

Lemma report_row_shown locale r : Forall shown (report_row locale r).
Proof.
  unfold report_row.
  repeat (apply Forall_cons; split;
          [first [apply text_cell_shown | apply date_cell_shown
                 | apply number_cell_shown]|]).
  constructor.
Qed.

(** [cell || ''] shows the same text as a cell that is shown. *)
Lemma shown_or c :
  shown c → Js.to_string (Js.or c (Js.Str EmptyString)) = Js.to_string c.
Proof.
  destruct c as [| |s|n]; try done; unfold Js.or; simpl.
  - by destruct (String.eqb_spec s EmptyString) as [->|].
  - intros Hn. by destruct (Z.eqb_spec n 0).
Qed.

Lemma foldr_max_start a l : a ≤ foldr Nat.max a l.
Proof. induction l as [|x l IH]; simpl; lia. Qed.

Lemma foldr_max_elem a l x : x ∈ l → x ≤ foldr Nat.max a l.
Proof.
  induction l as [|y l IH]; [by intros ?%elem_of_nil|].
  intros [->|Hin]%elem_of_cons; simpl; [lia|]. specialize (IH Hin). lia.
Qed.

(** The width of a column against its header and its cells. *)
Lemma colWidth_bounds rows i header :
  colWidth rows i header ≤ 50 ∧
  Nat.min (String.length header + 2) 50 ≤ colWidth rows i header ∧
  ∀ row cell, row ∈ rows → row !! i = Some cell → shown cell →
    Nat.min (String.length (Js.to_string cell) + 2) 50 ≤ colWidth rows i header.
Proof.
  unfold colWidth. split; [lia|]. split.
  - pose proof (foldr_max_start (String.length header)
      (map (λ row, String.length
                     (Js.to_string (Js.or (default Js.Undefined (row !! i))
                                          (Js.Str EmptyString)))) rows)).
    lia.
  - intros row cell Hin Hcell Hshown.
    pose proof (foldr_max_elem (String.length header)
      (map (λ row, String.length
                     (Js.to_string (Js.or (default Js.Undefined (row !! i))
                                          (Js.Str EmptyString)))) rows)
      (String.length (Js.to_string cell))) as Hmax.
    assert (String.length (Js.to_string cell)
            ≤ foldr Nat.max (String.length header)
                (map (λ row, String.length
                     (Js.to_string (Js.or (default Js.Undefined (row !! i))
                                          (Js.Str EmptyString)))) rows)).
    { apply Hmax. apply list_elem_of_fmap. exists row. split; [|done].
      by rewrite Hcell; simpl; rewrite shown_or. }
    lia.
Qed.

(** What a written workbook is built from. *)
Lemma exportToExcel_Ok locale timestamp input filename wb :
  exportToExcel locale timestamp input filename = Ok wb →
  ∃ name headers rows,
    wb = build name headers rows timestamp filename ∧
    length headers = columns input ∧
    Forall (λ row, length row = columns input ∧ Forall shown row) rows.
Proof.
  destruct input as [[[|t l]|]|[[|r l]|]]; try done; intros [= <-].
  - eexists _, _, _. split; [done|]. split; [done|].
    apply Forall_forall. intros row Hrow.
    apply (list_elem_of_fmap (ticket_row locale) (t :: l)) in Hrow
      as (x & -> & _).
    split; [done | apply ticket_row_shown].
  - eexists _, _, _. split; [done|]. split; [done|].
    apply Forall_forall. intros row Hrow.
    apply (list_elem_of_fmap (report_row locale) (r :: l)) in Hrow
      as (x & -> & _).
    split; [done | apply report_row_shown].
Qed.

End SheetFacts.

(** ** Further properties of the export and of the dashboard *)

(** X11.  The sheet that [exportToExcel] writes is rectangular: the
    header row, every data row and the list of column widths all have
    the same length, 20 for tickets and 15 for reports. *)
Theorem sheet_is_rectangular locale timestamp input filename wb :
  Excel.exportToExcel locale timestamp input filename = Ok wb →
  length (Excel.cols wb) = Sheet.columns input ∧
  Forall (λ row, length row = Sheet.columns input) (Excel.worksheetData wb).
Proof.
  intros (name & headers & rows & -> & Hlen & Hrows)%SheetFacts.exportToExcel_Ok.
  simpl. split; [by rewrite length_imap|].
  apply Forall_cons. split; [by rewrite length_map|].
  eapply Forall_impl; [exact Hrows|]. by intros row [? _].
Qed.

Lemma sheet_is_rectangular_witness :
  ∃ wb,
    Excel.exportToExcel Samples.day_first "2025-03-14"
      (Excel.tickets (Some [Samples2.plant_row])) "ACV_Tickets" = Ok wb ∧
    length (Excel.cols wb) = 20 ∧
    Forall (λ row, length row = 20) (Excel.worksheetData wb).
Proof.
  eexists. split; [reflexivity|].
  apply (sheet_is_rectangular Samples.day_first "2025-03-14"
           (Excel.tickets (Some [Samples2.plant_row])) "ACV_Tickets").
  reflexivity.
Defined.

(** X12.  No null, undefined or zero reaches the sheet: every cell of
    every row is a string (the empty one for a missing value) or a
    number other than zero. *)
Theorem sheet_cells_are_shown locale timestamp input filename wb :
  Excel.exportToExcel locale timestamp input filename = Ok wb →
  Forall (Forall Sheet.shown) (Excel.worksheetData wb).
Proof.
  intros (name & headers & rows & -> & Hlen & Hrows)%SheetFacts.exportToExcel_Ok.
  simpl. apply Forall_cons. split.
  - apply Forall_fmap, Forall_forall. by intros h _.
  - eapply Forall_impl; [exact Hrows|]. by intros row [_ ?].
Qed.

Lemma sheet_cells_are_shown_witness :
  ∃ wb,
    Excel.exportToExcel Samples.day_first "2025-03-14"
      (Excel.reports (Some [Samples.idle])) "ACV_Reports" = Ok wb ∧
    Forall (Forall Sheet.shown) (Excel.worksheetData wb).
Proof.
  eexists. split; [reflexivity|].
  apply (sheet_cells_are_shown Samples.day_first "2025-03-14"
           (Excel.reports (Some [Samples.idle])) "ACV_Reports").
  reflexivity.
Defined.

(** X13.  Every column width is at most 50, and up to that cap it is
    two more than the longest text in the column, header included: for
    each cell of the column, the smaller of 50 and the length of its
    text plus two is at most the width. *)
Theorem column_width_fits locale timestamp input filename wb i width :
  Excel.exportToExcel locale timestamp input filename = Ok wb →
  Excel.cols wb !! i = Some width →
  width ≤ 50 ∧
  ∀ row cell,
    row ∈ Excel.worksheetData wb →
    row !! i = Some cell →
    Nat.min (String.length (Js.to_string cell) + 2) 50 ≤ width.
Proof.
  intros (name & headers & rows & -> & Hlen & Hrows)%SheetFacts.exportToExcel_Ok.
  simpl. rewrite list_lookup_imap.
  destruct (headers !! i) as [header|] eqn:Hh; [|done]. intros [= <-].
  destruct (SheetFacts.colWidth_bounds rows i header) as (Hcap & Hhead & Hcells).
  split; [done|].
  intros row cell [->|Hin]%elem_of_cons Hcell.
  - rewrite list_lookup_fmap, Hh in Hcell. by injection Hcell as <-.
  - apply (Hcells row cell Hin Hcell).
    rewrite Forall_forall in Hrows. destruct (Hrows row Hin) as [_ Hshown].
    rewrite Forall_forall in Hshown. apply Hshown.
    by apply list_elem_of_lookup_2 in Hcell.
Qed.

Lemma column_width_fits_witness :
  ∃ wb width,
    Excel.exportToExcel Samples.day_first "2025-03-14"
      (Excel.tickets (Some [Samples2.plant_row])) "ACV_Tickets" = Ok wb ∧
    Excel.cols wb !! 0 = Some width ∧
    width ≤ 50.
Proof.
  eexists _, _. split; [reflexivity|]. split; [reflexivity|].
  exact (proj1 (column_width_fits Samples.day_first "2025-03-14"
                  (Excel.tickets (Some [Samples2.plant_row])) "ACV_Tickets"
                  _ 0 _ eq_refl eq_refl)).
Defined.

(** X14.  In the ticket statistics of the dashboard the counts of
    open, in-progress and closed tickets never add up to more than the
    total, and they add up to the total exactly when every ticket has
    one of the statuses "Open", "In Progress" and "Closed", spelled so:
    a ticket with another status, "Completed" included, or with none is
    in the total only. *)
Theorem ticket_statistics_add_up tickets :
  let stats := Dashboard.ticketStats tickets in
  Dashboard.open stats + Dashboard.inProgress stats + Dashboard.closed stats
    ≤ Dashboard.total stats ∧
  (Dashboard.open stats + Dashboard.inProgress stats + Dashboard.closed stats
     = Dashboard.total stats ↔ Forall Sheet.counted tickets).
Proof.
  simpl. unfold Dashboard.with_status, Sheet.counted.
  induction tickets as [|t l [IHle IHeq]]; [by split|].
  rewrite !filter_cons, Forall_cons.
  destruct (Schema.Ticket.ticketStatus t) as [s|] eqn:E;
    repeat case_decide; simplify_eq; simpl in *;
    (split; [lia|]); rewrite <- IHeq; split;
    try lia; try (intros [[?|[?|?]] ?]; simplify_eq; lia);
    try (intros ?; split; [auto | lia]).
Qed.

Module RouteFacts.
Import Schema Storage Users Routes RouteProps Props QueryFacts StoreFacts.

Lemma with_db_same st : with_db st (db st) = st.
Proof. by destruct st. Qed.

Lemma storage_eq {A : Type} (m : M A) st result db' :
  m (db st) = (result, db') → storage m st = (result, with_db st db').
Proof. unfold storage. by intros ->. Qed.

Lemma get_ticket_eq id st :
  get_ticket id st =
    (match stored_ticket (db st) id with
     | Some t => respond 200 (ticket t)
     | None => respond 404 (error "Ticket not found")
     end, st).
Proof.
  unfold get_ticket.
  rewrite (storage_eq _ _ _ _ (getTicketById_eq id (db st))), with_db_same.
  by destruct (stored_ticket (db st) id).
Qed.

Lemma get_report_eq id st :
  get_report id st =
    (match stored_report (db st) id with
     | Some r => respond 200 (report r)
     | None => respond 404 (error "Report not found")
     end, st).
Proof.
  unfold get_report.
  rewrite (storage_eq _ _ _ _ (getReportById_eq id (db st))), with_db_same.
  by destruct (stored_report (db st) id).
Qed.

Lemma delete_ticket_eq id st :
  delete_ticket id st =
    (if bool_decide (is_Some (stored_ticket (db st) id))
     then respond 200 success
     else respond 404 (error "Ticket not found"),
     with_db st (without_ticket id (db st))).
Proof.
  unfold delete_ticket.
  rewrite (storage_eq _ _ _ _ (deleteTicket_eq id (db st))).
  by destruct (bool_decide _).
Qed.

Lemma delete_report_eq id st :
  delete_report id st =
    (if bool_decide (is_Some (stored_report (db st) id))
     then respond 200 success
     else respond 404 (error "Report not found"),
     with_db st (without_report id (db st))).
Proof.
  unfold delete_report.
  rewrite (storage_eq _ _ _ _ (deleteReport_eq id (db st))).
  by destruct (bool_decide _).
Qed.

Lemma put_ticket_eq id v st :
  put_ticket id v st =
    if existsb (λ b, b) (InsertTicket.entries v)
    then (match stored_ticket (with_ticket_set id v (db st)) id with
          | Some t => respond 200 (ticket t)
          | None => respond 404 (error "Ticket not found")
          end, with_db st (with_ticket_set id v (db st)))
    else (respond 500 (error "Failed to update ticket"), st).
Proof.
  unfold put_ticket, storage, with_db. destruct st as [us d se].
  cbn [users db session].
  rewrite updateTicket_eq.
  destruct (existsb _ _); [|done]. by destruct (stored_ticket _ id).
Qed.

Lemma put_report_eq id v st :
  put_report id v st =
    if existsb (λ b, b) (InsertReport.entries v)
    then (match stored_report (with_report_set id v (db st)) id with
          | Some r => respond 200 (report r)
          | None => respond 404 (error "Report not found")
          end, with_db st (with_report_set id v (db st)))
    else (respond 500 (error "Failed to update report"), st).
Proof.
  unfold put_report, storage, with_db. destruct st as [us d se].
  cbn [users db session].
  rewrite updateReport_eq.
  destruct (existsb _ _); [|done]. by destruct (stored_report _ id).
Qed.

Lemma list_tickets_eq w a b c st :
  list_tickets w a b c st =
    (respond 200
       (ticket_list
          (listed Ticket.date
             (ticket_conditions w
                (ticket_filter_values (Some (TicketFilters.mk a b c))))
             (rows (tickets (db st))))), st).
Proof.
  unfold list_tickets.
  rewrite (storage_eq _ _ _ _ (ListFacts.getTickets_eq w _ (db st))).
  by rewrite with_db_same.
Qed.

Lemma list_reports_eq w a b c st :
  list_reports w a b c st =
    (respond 200
       (report_list
          (listed Report.date
             (report_conditions w
                (report_filter_values (Some (ReportFilters.mk a b c))))
             (rows (reports (db st))))), st).
Proof.
  unfold list_reports.
  rewrite (storage_eq _ _ _ _ (ListFacts.getReports_eq w _ (db st))).
  by rewrite with_db_same.
Qed.

Lemma export_tickets_eq w st :
  export_tickets w st =
    ({| status := 200; headers := excel_headers "tickets.xlsx";
        body := ticket_list (Sql.order_by_desc Ticket.date
                               (rows (tickets (db st)))) |}, st).
Proof.
  unfold export_tickets.
  rewrite (storage_eq _ _ _ _ (ListFacts.getTickets_eq w None (db st))).
  by rewrite with_db_same.
Qed.

Lemma export_reports_eq w st :
  export_reports w st =
    ({| status := 200; headers := excel_headers "reports.xlsx";
        body := report_list (Sql.order_by_desc Report.date
                               (rows (reports (db st)))) |}, st).
Proof.
  unfold export_reports.
  rewrite (storage_eq _ _ _ _ (ListFacts.getReports_eq w None (db st))).
  by rewrite with_db_same.
Qed.

Lemma getUserByUserId_eq w userId st :
  getUserByUserId w userId (users st) = (Ok (account w userId st), users st).
Proof.
  unfold getUserByUserId, account. do 3 f_equal.
  apply list_filter_iff. intros u. unfold Sql.eq_text; simpl.
  by rewrite bool_decide_eq_true.
Qed.

End RouteFacts.

(** ** Properties of the routes *)

(** X15.  Every route behind [requireAuth] needs a user in the
    session: without one the answer is 401 "Authentication required"
    and nothing is read or written; with one the answer is never 401
    but one of 200, 201, 400, 404 and 500. *)
Theorem guarded_needs_session w year req st :
  Routes.guarded req = true →
  (Routes.session st = None →
   Routes.handle w year req st
     = (Routes.respond 401 (Routes.error "Authentication required"), st)) ∧
  (is_Some (Routes.session st) →
   Routes.status (fst (Routes.handle w year req st))
     ∈ [200; 201; 400; 404; 500]).
Proof.
  intros Hguard. split.
  - intros Hnone. destruct req; try done;
      unfold Routes.handle, Routes.requireAuth; by rewrite Hnone.
  - intros [u Hu]. destruct req; try done;
      unfold Routes.handle, Routes.requireAuth; rewrite Hu.
    + rewrite RouteFacts.list_tickets_eq. set_solver.
    + rewrite RouteFacts.get_ticket_eq. simpl. case_match; set_solver.
    + unfold Routes.post_ticket, Routes.storage.
      destruct body as [v|]; [|set_solver].
      destruct (Storage.createTicket year v (Routes.db st)) as [[[t|]|] db'];
        set_solver.
    + rewrite RouteFacts.put_ticket_eq. repeat case_match; set_solver.
    + rewrite RouteFacts.delete_ticket_eq. simpl. case_match; set_solver.
    + rewrite RouteFacts.list_reports_eq. set_solver.
    + rewrite RouteFacts.get_report_eq. simpl. case_match; set_solver.
    + unfold Routes.post_report, Routes.storage.
      destruct body as [v|]; [|set_solver].
      destruct (Storage.createReport v (Routes.db st)) as [[[r|]|] db'];
        set_solver.
    + rewrite RouteFacts.put_report_eq. repeat case_match; set_solver.
    + rewrite RouteFacts.delete_report_eq. simpl. case_match; set_solver.
    + rewrite RouteFacts.export_tickets_eq. set_solver.
    + rewrite RouteFacts.export_reports_eq. set_solver.
Qed.

Lemma guarded_needs_session_witness :
  Routes.handle Sql.case_insensitive 2025 (Routes.DeleteTicket 1)
    Samples2.signed_out
  = (Routes.respond 401 (Routes.error "Authentication required"),
     Samples2.signed_out).
Proof.
  apply (proj1 (guarded_needs_session Sql.case_insensitive 2025
                  (Routes.DeleteTicket 1) Samples2.signed_out eq_refl)).
  reflexivity.
Defined.

(** X16.  No route writes the users table; only login and logout
    change the session; and the routes that read (the lists, the
    lookups, the exports and the status of the session) leave the
    whole state as it is. *)
Theorem routes_keep_their_place w year req st :
  Routes.users (snd (Routes.handle w year req st)) = Routes.users st ∧
  (RouteProps.signs req = false →
   Routes.session (snd (Routes.handle w year req st)) = Routes.session st) ∧
  (RouteProps.reads req = true → snd (Routes.handle w year req st) = st).
Proof.
  destruct (Routes.session st) as [u|] eqn:Hs.
  - destruct req; unfold Routes.handle, Routes.requireAuth; rewrite ?Hs;
      rewrite ?RouteFacts.list_tickets_eq, ?RouteFacts.get_ticket_eq,
        ?RouteFacts.put_ticket_eq, ?RouteFacts.delete_ticket_eq,
        ?RouteFacts.list_reports_eq, ?RouteFacts.get_report_eq,
        ?RouteFacts.put_report_eq, ?RouteFacts.delete_report_eq,
        ?RouteFacts.export_tickets_eq, ?RouteFacts.export_reports_eq;
      try (by repeat split; repeat case_match).
    + unfold Routes.login.
      destruct userId as [uid|], password as [pw|]; try done.
      destruct (_ || _); [done|]. rewrite RouteFacts.getUserByUserId_eq.
      by repeat case_match.
    + unfold Routes.auth_status_route. by rewrite Hs.
    + unfold Routes.post_ticket, Routes.storage.
      destruct body as [v|]; [|done].
      by destruct (Storage.createTicket year v (Routes.db st)) as [[[t|]|] db'].
    + unfold Routes.post_report, Routes.storage.
      destruct body as [v|]; [|done].
      by destruct (Storage.createReport v (Routes.db st)) as [[[r|]|] db'].
  - destruct req; unfold Routes.handle, Routes.requireAuth; rewrite ?Hs;
      try done.
    + unfold Routes.login.
      destruct userId as [uid|], password as [pw|]; try done.
      destruct (_ || _); [done|]. rewrite RouteFacts.getUserByUserId_eq.
      by repeat case_match.
    + unfold Routes.auth_status_route. by rewrite Hs.
Qed.

Lemma routes_keep_their_place_witness :
  snd (Routes.handle Sql.case_insensitive 2025
         (Routes.ListTickets (Some "plant") None None) Samples2.signed_in)
  = Samples2.signed_in.
Proof.
  apply (routes_keep_their_place Sql.case_insensitive 2025
           (Routes.ListTickets (Some "plant") None None) Samples2.signed_in).
  reflexivity.
Defined.

(** X17.  For a logged-in user, [DELETE /api/tickets/:id] and
    [DELETE /api/reports/:id] answer 404 and change nothing when no
    row has the key; otherwise they answer 200 with success, and the
    row is gone: a lookup of the same key then answers 404 and so does
    a second delete. *)
Theorem delete_route_answers w year st id :
  is_Some (Routes.session st) →
  (Props.stored_ticket (Routes.db st) id = None →
   Routes.handle w year (Routes.DeleteTicket id) st
     = (Routes.respond 404 (Routes.error "Ticket not found"), st)) ∧
  (is_Some (Props.stored_ticket (Routes.db st) id) →
   ∃ st',
     Routes.handle w year (Routes.DeleteTicket id) st
       = (Routes.respond 200 Routes.success, st') ∧
     Routes.handle w year (Routes.GetTicket id) st'
       = (Routes.respond 404 (Routes.error "Ticket not found"), st') ∧
     Routes.handle w year (Routes.DeleteTicket id) st'
       = (Routes.respond 404 (Routes.error "Ticket not found"), st')) ∧
  (Props.stored_report (Routes.db st) id = None →
   Routes.handle w year (Routes.DeleteReport id) st
     = (Routes.respond 404 (Routes.error "Report not found"), st)) ∧
  (is_Some (Props.stored_report (Routes.db st) id) →
   ∃ st',
     Routes.handle w year (Routes.DeleteReport id) st
       = (Routes.respond 200 Routes.success, st') ∧
     Routes.handle w year (Routes.GetReport id) st'
       = (Routes.respond 404 (Routes.error "Report not found"), st') ∧
     Routes.handle w year (Routes.DeleteReport id) st'
       = (Routes.respond 404 (Routes.error "Report not found"), st')).
Proof.
  intros [u Hu].
  assert (Hafter : ∀ db', Routes.session (RouteProps.with_db st db') = Some u)
    by done.
  unfold Routes.handle, Routes.requireAuth. rewrite Hu.
  split; [|split; [|split]].
  - intros Hnone. rewrite RouteFacts.delete_ticket_eq, Hnone.
    rewrite bool_decide_eq_false_2 by (by intros [? ?]).
    rewrite (StoreFacts.without_ticket_absent _ _ Hnone).
    by rewrite RouteFacts.with_db_same.
  - intros Hsome. eexists. rewrite RouteFacts.delete_ticket_eq.
    rewrite bool_decide_eq_true_2 by done. split; [reflexivity|].
    rewrite Hafter, RouteFacts.get_ticket_eq, RouteFacts.delete_ticket_eq.
    simpl. rewrite StoreFacts.stored_ticket_without.
    rewrite bool_decide_eq_false_2 by (by intros [? ?]). split; [done|].
    f_equal. unfold RouteProps.with_db; simpl. f_equal.
    apply StoreFacts.without_ticket_absent, StoreFacts.stored_ticket_without.
  - intros Hnone. rewrite RouteFacts.delete_report_eq, Hnone.
    rewrite bool_decide_eq_false_2 by (by intros [? ?]).
    rewrite (StoreFacts.without_report_absent _ _ Hnone).
    by rewrite RouteFacts.with_db_same.
  - intros Hsome. eexists. rewrite RouteFacts.delete_report_eq.
    rewrite bool_decide_eq_true_2 by done. split; [reflexivity|].
    rewrite Hafter, RouteFacts.get_report_eq, RouteFacts.delete_report_eq.
    simpl. rewrite StoreFacts.stored_report_without.
    rewrite bool_decide_eq_false_2 by (by intros [? ?]). split; [done|].
    f_equal. unfold RouteProps.with_db; simpl. f_equal.
    apply StoreFacts.without_report_absent, StoreFacts.stored_report_without.
Qed.

Lemma delete_route_answers_witness :
  ∃ st',
    Routes.handle Sql.case_insensitive 2025 (Routes.DeleteTicket 1)
      Samples2.signed_in = (Routes.respond 200 Routes.success, st') ∧
    Routes.handle Sql.case_insensitive 2025 (Routes.GetTicket 1) st'
      = (Routes.respond 404 (Routes.error "Ticket not found"), st') ∧
    Routes.handle Sql.case_insensitive 2025 (Routes.DeleteTicket 1) st'
      = (Routes.respond 404 (Routes.error "Ticket not found"), st').
Proof.
  destruct (delete_route_answers Sql.case_insensitive 2025 Samples2.signed_in
              1%Z) as (_ & Hthere & _); [by eexists|].
  apply Hthere. by eexists.
Defined.



(** X19.  For a logged-in user and a store whose keys are below the
    counters, a POST with a valid body answers 201 with the created
    row, and a GET of the key of that row then answers 200 with the
    same row; a POST whose body the schema rejects answers 400 and
    changes nothing. *)
Theorem post_route_answers w year st :
  is_Some (Routes.session st) →
  Props.consistent (Routes.db st) →
  (∀ body,
     ∃ t st',
       Routes.handle w year (Routes.PostTicket (Routes.Valid body)) st
         = (Routes.respond 201 (Routes.ticket t), st') ∧
       Routes.handle w year (Routes.GetTicket (Schema.Ticket.id t)) st'
         = (Routes.respond 200 (Routes.ticket t), st')) ∧
  (∀ body,
     ∃ r st',
       Routes.handle w year (Routes.PostReport (Routes.Valid body)) st
         = (Routes.respond 201 (Routes.report r), st') ∧
       Routes.handle w year (Routes.GetReport (Schema.Report.id r)) st'
         = (Routes.respond 200 (Routes.report r), st')) ∧
  Routes.handle w year (Routes.PostTicket Routes.ZodError) st
    = (Routes.respond 400 (Routes.invalid "Invalid ticket data"), st) ∧
  Routes.handle w year (Routes.PostReport Routes.ZodError) st
    = (Routes.respond 400 (Routes.invalid "Invalid report data"), st).
Proof.
  intros [u Hu] [Hkt Hkr].
  assert (Hafter : ∀ db', Routes.session (RouteProps.with_db st db') = Some u)
    by done.
  unfold Routes.handle, Routes.requireAuth. rewrite Hu.
  split; [|split; [|done]].
  - intros body. eexists _, _. unfold Routes.post_ticket.
    rewrite (RouteFacts.storage_eq _ _ _ _
               (NumberFacts.createTicket_eq year body (Routes.db st) Hkt)).
    split; [reflexivity|].
    rewrite Hafter, RouteFacts.get_ticket_eq. simpl.
    by rewrite NumberFacts.stored_ticket_new.
  - intros body. eexists _, _. unfold Routes.post_report.
    rewrite (RouteFacts.storage_eq _ _ _ _
               (StoreFacts.createReport_eq body (Routes.db st) Hkr)).
    split; [reflexivity|].
    rewrite Hafter, RouteFacts.get_report_eq. simpl.
    by rewrite StoreFacts.stored_report_new.
Qed.

Lemma post_route_answers_witness :
  ∃ t st',
    Routes.handle Sql.case_insensitive 2025
      (Routes.PostTicket (Routes.Valid Samples.mill)) Samples2.signed_in
      = (Routes.respond 201 (Routes.ticket t), st') ∧
    Routes.handle Sql.case_insensitive 2025
      (Routes.GetTicket (Schema.Ticket.id t)) st'
      = (Routes.respond 200 (Routes.ticket t), st').
Proof.
  destruct (post_route_answers Sql.case_insensitive 2025 Samples2.signed_in)
    as (Hpost & _); [by eexists | split; repeat constructor |].
  apply Hpost.
Defined.

(** X20.  For a logged-in user the export routes answer 200 with the
    two download headers and with every stored row, newest date first:
    the very list that the list routes return when no query value is
    given. *)
Theorem export_routes_list_everything w year st :
  is_Some (Routes.session st) →
  (∃ l,
     Routes.handle w year Routes.ExportTickets st
       = ({| Routes.status := 200;
             Routes.headers := Routes.excel_headers "tickets.xlsx";
             Routes.body := Routes.ticket_list l |}, st) ∧
     Routes.handle w year (Routes.ListTickets None None None) st
       = (Routes.respond 200 (Routes.ticket_list l), st) ∧
     l ≡ₚ Storage.rows (Storage.tickets (Routes.db st)) ∧
     StronglySorted (Sql.desc Schema.Ticket.date) l) ∧
  (∃ l,
     Routes.handle w year Routes.ExportReports st
       = ({| Routes.status := 200;
             Routes.headers := Routes.excel_headers "reports.xlsx";
             Routes.body := Routes.report_list l |}, st) ∧
     Routes.handle w year (Routes.ListReports None None None) st
       = (Routes.respond 200 (Routes.report_list l), st) ∧
     l ≡ₚ Storage.rows (Storage.reports (Routes.db st)) ∧
     StronglySorted (Sql.desc Schema.Report.date) l).
Proof.
  intros [u Hu]. unfold Routes.handle, Routes.requireAuth. rewrite Hu.
  split; eexists.
  - split; [apply RouteFacts.export_tickets_eq|].
    split; [apply RouteFacts.list_tickets_eq|].
    split; [apply merge_sort_Permutation|].
    apply StronglySorted_merge_sort; apply _.
  - split; [apply RouteFacts.export_reports_eq|].
    split; [apply RouteFacts.list_reports_eq|].
    split; [apply merge_sort_Permutation|].
    apply StronglySorted_merge_sort; apply _.
Qed.

Lemma export_routes_list_everything_witness :
  ∃ l,
    Routes.handle Sql.case_insensitive 2025 Routes.ExportTickets
      Samples2.signed_in
      = ({| Routes.status := 200;
            Routes.headers := Routes.excel_headers "tickets.xlsx";
            Routes.body := Routes.ticket_list l |}, Samples2.signed_in) ∧
    l ≡ₚ Storage.rows (Storage.tickets Samples.one_ticket).
Proof.
  destruct (proj1 (export_routes_list_everything Sql.case_insensitive 2025
                     Samples2.signed_in ltac:(by eexists)))
    as (l & Hrun & _ & Hperm & _).
  by exists l.
Defined.

Module LoginFacts.
Import Schema Storage Users Routes RouteProps.

(** What the login route does, case by case. *)
Lemma login_eq w userId password st :
  login w userId password st =
    match userId, password with
    | Some uid, Some pw =>
        if String.eqb uid EmptyString || String.eqb pw EmptyString then
          (respond 400 (error "User ID and password are required"), st)
        else
          match account w uid st with
          | Some user =>
              if String.eqb (User.password user) pw
              then (respond 200 (logged_in (entry user)),
                    signed_in_as st (entry user))
              else (respond 401 (error "Invalid credentials"), st)
          | None => (respond 401 (error "Invalid credentials"), st)
          end
    | _, _ => (respond 400 (error "User ID and password are required"), st)
    end.
Proof.
  unfold login. destruct userId as [uid|], password as [pw|]; try done.
  destruct (_ || _); [done|]. rewrite RouteFacts.getUserByUserId_eq.
  destruct st as [us d se]. by repeat case_match.
Qed.

Lemma account_new w st user :
  (∀ u, u ∈ rows (users st) →
        Sql.weights w (User.userId u) ≠ Sql.weights w (InsertUser.userId user)) →
  account w (InsertUser.userId user)
    {| users := {| rows := rows (users st)
                           ++ [user_values (auto_increment (users st)) user];
                   auto_increment := auto_increment (users st) + 1 |};
       db := db st; session := session st |}
  = Some (user_values (auto_increment (users st)) user).
Proof.
  intros Hfree. unfold account; simpl. rewrite filter_app.
  assert (filter (λ u, Sql.weights w (User.userId u)
                       = Sql.weights w (InsertUser.userId user))
            (rows (users st)) = []) as ->.
  { induction (rows (users st)) as [|u l IH]; [done|].
    rewrite filter_cons_False.
    - apply IH. intros x Hx. apply Hfree, elem_of_cons. by right.
    - apply Hfree, elem_of_cons. by left. }
  by rewrite filter_cons_True.
Qed.

End LoginFacts.

(** ** Properties of login and of the session *)

(** X21.  A login is answered 200 exactly when user id and password
    are both given and not empty, a user row has that user id (as the
    database compares it) and the first such row has exactly that
    password.  Then the session gets the key and the stored user id of
    that row.  Otherwise the answer is 400 or 401 and the state,
    session included, stays as it was. *)
Theorem login_checks_credentials w year userId password st :
  ∃ r st',
    Routes.handle w year (Routes.Login userId password) st = (r, st') ∧
    (Routes.status r = 200 ↔
     ∃ uid pw user,
       userId = Some uid ∧ password = Some pw ∧
       uid ≠ EmptyString ∧ pw ≠ EmptyString ∧
       RouteProps.account w uid st = Some user ∧
       Users.User.password user = pw) ∧
    (∀ uid user,
       userId = Some uid →
       RouteProps.account w uid st = Some user →
       Routes.status r = 200 →
       r = Routes.respond 200 (Routes.logged_in (RouteProps.entry user)) ∧
       st' = RouteProps.signed_in_as st (RouteProps.entry user)) ∧
    (Routes.status r ≠ 200 →
     st' = st ∧ (Routes.status r = 400 ∨ Routes.status r = 401)).
Proof.
  unfold Routes.handle. rewrite LoginFacts.login_eq.
  destruct userId as [uid|], password as [pw|];
    try (eexists _, _; split; [reflexivity|]; simpl;
         split; [split; [done | by intros (? & ? & ? & ? & ? & _)]|];
         split; [done | auto]).
  destruct (String.eqb_spec uid EmptyString) as [->|Huid]; simpl.
  { eexists _, _. split; [reflexivity|]. simpl.
    split; [split; [done | by intros (? & ? & ? & [= <-] & _ & ? & _)]|].
    split; [done | auto]. }
  destruct (String.eqb_spec pw EmptyString) as [->|Hpw]; simpl.
  { eexists _, _. split; [reflexivity|]. simpl.
    split; [split; [done | by intros (? & ? & ? & _ & [= <-] & _ & ? & _)]|].
    split; [done | auto]. }
  destruct (RouteProps.account w uid st) as [user|] eqn:Hacc.
  - destruct (String.eqb_spec (Users.User.password user) pw) as [Hsame|Hdiff].
    + eexists _, _. split; [reflexivity|]. simpl.
      split; [split; [intros _; by exists uid, pw, user | done]|].
      split; [|done]. intros uid' user' [= <-] Ha _.
      rewrite Hacc in Ha. by injection Ha as <-.
    + eexists _, _. split; [reflexivity|]. simpl.
      split; [|split; [done | auto]].
      split; [done|]. intros (? & ? & ? & [= <-] & [= <-] & _ & _ & Ha & Hp).
      rewrite Hacc in Ha. by injection Ha as <-.
  - eexists _, _. split; [reflexivity|]. simpl.
    split; [|split; [done | auto]].
    split; [done|]. intros (? & ? & ? & [= <-] & _ & _ & _ & Ha & _).
    by rewrite Hacc in Ha.
Qed.

(** X22.  A user added with [createUser] is read back with the key the
    counter held and the fields supplied, and can then log in with
    the same user id and password, provided both are non-empty and no
    earlier row has that user id (as the database compares it).  The
    answer carries the new key, and so does the session. *)
Theorem created_user_can_log_in w year st user :
  Forall (λ u, (Users.User.id u
                < Storage.auto_increment (Routes.users st))%Z)
    (Storage.rows (Routes.users st)) →
  (∀ u, u ∈ Storage.rows (Routes.users st) →
        Sql.weights w (Users.User.userId u)
        ≠ Sql.weights w (Users.InsertUser.userId user)) →
  Users.InsertUser.userId user ≠ EmptyString →
  Users.InsertUser.password user ≠ EmptyString →
  ∃ u users',
    Users.createUser user (Routes.users st) = (Ok (Some u), users') ∧
    u = Users.user_values (Storage.auto_increment (Routes.users st)) user ∧
    Users.getUser (Users.User.id u) users' = (Ok (Some u), users') ∧
    Routes.handle w year
      (Routes.Login (Some (Users.InsertUser.userId user))
         (Some (Users.InsertUser.password user)))
      {| Routes.users := users'; Routes.db := Routes.db st;
         Routes.session := Routes.session st |}
    = (Routes.respond 200 (Routes.logged_in (RouteProps.entry u)),
       {| Routes.users := users'; Routes.db := Routes.db st;
          Routes.session := Some (RouteProps.entry u) |}).
Proof.
  intros Hbelow Hfree Huid Hpw.
  assert (Hread : Users.getUser (Storage.auto_increment (Routes.users st))
            {| Storage.rows := Storage.rows (Routes.users st)
                 ++ [Users.user_values
                       (Storage.auto_increment (Routes.users st)) user];
               Storage.auto_increment :=
                 Storage.auto_increment (Routes.users st) + 1 |}
          = (Ok (Some (Users.user_values
                         (Storage.auto_increment (Routes.users st)) user)),
             {| Storage.rows := Storage.rows (Routes.users st)
                  ++ [Users.user_values
                        (Storage.auto_increment (Routes.users st)) user];
                Storage.auto_increment :=
                  Storage.auto_increment (Routes.users st) + 1 |})).
  { unfold Users.getUser; simpl. do 3 f_equal.
    rewrite QueryFacts.where_eq_id, filter_app.
    rewrite (QueryFacts.filter_key_fresh Users.User.id _ _ Hbelow).
    by rewrite filter_cons_True. }
  eexists _, _. split; [exact Hread|]. split; [reflexivity|].
  split; [exact Hread|].
  unfold Routes.handle. rewrite LoginFacts.login_eq.
  destruct (String.eqb_spec (Users.InsertUser.userId user) EmptyString);
    [done|].
  destruct (String.eqb_spec (Users.InsertUser.password user) EmptyString);
    [done|].
  simpl. rewrite (LoginFacts.account_new w st user Hfree). simpl.
  by rewrite String.eqb_refl.
Qed.

Lemma created_user_can_log_in_witness :
  ∃ u users',
    Users.createUser (Users.InsertUser.mk "acv01" "acv1234@")
      Samples2.one_user = (Ok (Some u), users') ∧
    Routes.handle Sql.case_insensitive 2025
      (Routes.Login (Some "acv01") (Some "acv1234@"))
      {| Routes.users := users'; Routes.db := Samples.one_ticket;
         Routes.session := None |}
    = (Routes.respond 200 (Routes.logged_in (RouteProps.entry u)),
       {| Routes.users := users'; Routes.db := Samples.one_ticket;
          Routes.session := Some (RouteProps.entry u) |}).
Proof.
  destruct (created_user_can_log_in Sql.case_insensitive 2025
              Samples2.signed_out (Users.InsertUser.mk "acv01" "acv1234@"))
    as (u & users' & Hcreate & _ & _ & Hlogin).
  - repeat constructor.
  - intros u [->|[]%elem_of_nil]%elem_of_cons. by vm_compute.
  - done.
  - done.
  - by exists u, users'.
Defined.

(** X23.  The session through a visit: after a login that is accepted
    the status route names the user; after the logout that follows it
    names nobody, and a request to any guarded route is then answered
    401. *)
Theorem session_through_a_visit w year st uid pw user req :
  uid ≠ EmptyString →
  pw ≠ EmptyString →
  RouteProps.account w uid st = Some user →
  Users.User.password user = pw →
  Routes.guarded req = true →
  fst (Routes.serve w
         [(year, Routes.Login (Some uid) (Some pw));
          (year, Routes.AuthStatus);
          (year, Routes.Logout);
          (year, Routes.AuthStatus);
          (year, req)] st)
  = [Routes.respond 200 (Routes.logged_in (RouteProps.entry user));
     Routes.respond 200
       (Routes.auth_status true (Some (RouteProps.entry user)));
     Routes.respond 200 Routes.success;
     Routes.respond 200 (Routes.auth_status false None);
     Routes.respond 401 (Routes.error "Authentication required")].
Proof.
  intros Huid Hpw Hacc Hpass Hguard.
  cbn [Routes.serve]. unfold Routes.handle at 1.
  rewrite LoginFacts.login_eq, Hacc, Hpass.
  destruct (String.eqb_spec uid EmptyString); [done|].
  destruct (String.eqb_spec pw EmptyString); [done|].
  simpl. rewrite String.eqb_refl. simpl.
  by destruct req.
Qed.

Lemma session_through_a_visit_witness :
  fst (Routes.serve Sql.case_insensitive
         [(2025, Routes.Login (Some "ADMIN") (Some "admin123"));
          (2025, Routes.AuthStatus);
          (2025, Routes.Logout);
          (2025, Routes.AuthStatus);
          (2025, Routes.ListTickets None None None)] Samples2.signed_out)
  = [Routes.respond 200 (Routes.logged_in (Routes.mkSessionUser 1 "admin"));
     Routes.respond 200
       (Routes.auth_status true (Some (Routes.mkSessionUser 1 "admin")));
     Routes.respond 200 Routes.success;
     Routes.respond 200 (Routes.auth_status false None);
     Routes.respond 401 (Routes.error "Authentication required")].
Proof.
  apply (session_through_a_visit Sql.case_insensitive 2025 Samples2.signed_out
           "ADMIN" "admin123" Samples2.admin
           (Routes.ListTickets None None None)); done.
Defined.

(** ** Ticket numbers in a row *)

(** X24.  Tickets dated in the current year and created one after the
    other, with no delete in between, are numbered in a row: when the
    store holds c tickets of that year, they get the numbers c+1, c+2
    and so on, each padded to three digits behind [TKT-<year>-]. *)
Theorem numbers_count_up year inputs db :
  Props.consistent db →
  Forall (Calls.dated_in year) inputs →
  ∃ created,
    fst (Calls.createTickets year inputs db)
      = map (λ t, Ok (Some t)) created ∧
    map Schema.Ticket.ticketNo created
      = map (λ k, Some ("TKT-" +:+ pretty year +:+ "-"
                        +:+ Js.padStart 3 "0" (pretty k)))
          (seq (Props.tickets_dated_in year db + 1) (length inputs)).
Proof.
  intros Hc Hdated. revert db Hc.
  induction Hdated as [|ticket inputs (d & Hd & Hy) _ IH]; intros db [Hkt Hkr].
  - by exists [].
  - cbn [Calls.createTickets].
    rewrite NumberFacts.createTicket_eq by done.
    set (t := Props.numbered year ticket db).
    destruct (IH (Props.with_ticket t db)) as (created & Hrun & Hnos).
    { split; [by apply NumberFacts.keys_below_with_ticket | done]. }
    exists (t :: created).
    destruct (Calls.createTickets year inputs (Props.with_ticket t db))
      as [results db''].
    simpl in Hrun. subst results. split; [done|].
    cbn [map length seq]. f_equal.
    rewrite Hnos, NumberFacts.tickets_dated_in_with_ticket.
    replace (Props.dated_in year t) with true.
    + by replace (Props.tickets_dated_in year db + 1 + 1)
        with (S (Props.tickets_dated_in year db + 1)) by lia.
    + unfold Props.dated_in, t; simpl. rewrite Hd; simpl.
      symmetry. by apply Nat.eqb_eq.
Qed.

Lemma numbers_count_up_witness :
  ∃ created,
    fst (Calls.createTickets 2025 [Samples.mill; Samples.dock] Samples2.both)
      = map (λ t, Ok (Some t)) created ∧
    map Schema.Ticket.ticketNo created
      = [Some "TKT-2025-002"; Some "TKT-2025-003"].
Proof.
  destruct (numbers_count_up 2025 [Samples.mill; Samples.dock] Samples2.both)
    as (created & Hrun & Hnos).
  - split; repeat constructor.
  - repeat constructor; by exists Samples.march14.
  - by exists created.
Defined.

(** X25.  The numbering follows the dates, not the calls: a ticket
    created with no date, or with a date outside the current year, is
    not counted, so the ticket created next gets the same number. *)
Theorem undated_ticket_repeats_number db year first second :
  Props.consistent db →
  (∀ d, Schema.stored (Schema.InsertTicket.date first) = Some d →
        Sql.year d ≠ year) →
  ∃ t1 db1 t2 db2,
    Storage.createTicket year first db = (Ok (Some t1), db1) ∧
    Storage.createTicket year second db1 = (Ok (Some t2), db2) ∧
    Schema.Ticket.id t1 ≠ Schema.Ticket.id t2 ∧
    Schema.Ticket.ticketNo t2 = Schema.Ticket.ticketNo t1.
Proof.
  intros [Hkt Hkr] Hdate.
  set (t1 := Props.numbered year first db).
  assert (Hk1 : Props.keys_below Storage.tickets_table (Props.with_ticket t1 db))
    by (by apply NumberFacts.keys_below_with_ticket).
  eexists _, _, _, _.
  split; [by apply NumberFacts.createTicket_eq|].
  split; [by apply NumberFacts.createTicket_eq|].
  split; [simpl; lia|].
  unfold Props.numbered at 1. cbn [Schema.ticket_values Schema.Ticket.ticketNo
    Schema.InsertTicket.with_number_and_status Schema.InsertTicket.ticketNo
    Schema.stored].
  rewrite NumberFacts.tickets_dated_in_with_ticket.
  assert (Hout : Props.dated_in year (Props.numbered year first db) = false).
  { unfold Props.dated_in; simpl.
    destruct (Schema.stored (Schema.InsertTicket.date first)) as [d|] eqn:E;
      [|done].
    apply Nat.eqb_neq. by apply Hdate. }
  by rewrite Hout, Nat.add_0_r.
Qed.

Lemma undated_ticket_repeats_number_witness :
  ∃ t1 db1 t2 db2,
    Storage.createTicket 2025 Samples.close Props.fresh = (Ok (Some t1), db1) ∧
    Storage.createTicket 2025 Samples.plant db1 = (Ok (Some t2), db2) ∧
    Schema.Ticket.id t1 ≠ Schema.Ticket.id t2 ∧
    Schema.Ticket.ticketNo t2 = Schema.Ticket.ticketNo t1.
Proof.
  apply (undated_ticket_repeats_number Props.fresh 2025 Samples.close
           Samples.plant).
  - split; constructor.
  - intros d Hd. discriminate Hd.
Defined.
